(** * Function and FunctionVector

    A shallow embedding of [fastlane_bot/tools/invariants/functions.py]:
    the frozen dataclass [Function] with its finite-difference derivatives
    and price functions, the wrappers [PriceFunction] / [Price2Function],
    and [FunctionVector] with its evaluation, goal seek and gradient descent.

    Numbers are Python floats, that is IEEE-754 binary64; they are embedded
    as Rocq's primitive [float], whose operations round exactly as the
    hardware does.  An int argument (the defaults [0] and [1], the [0] that
    [sum] starts from) is read as the float of the same value.  Python raises
    where IEEE returns a special value in two places the module meets:
    [/] by zero and an overflowing [**]; both are modelled.  What the float
    primitives do not fix is taken as a parameter where it decides a
    statement: [math.sin], the [**] of the optimiser and of the distances
    (the C library's [pow]), and [np.dot].  Exceptions are values of an
    error monad. *)

From Stdlib Require Import ZArith List String Bool Lia.
From Stdlib Require Import Floats.
Import ListNotations.

Set Warnings "-inexact-float,-register-all".
Local Open Scope string_scope.
Local Open Scope list_scope.
Local Open Scope float_scope.

(** ** Python runtime: exceptions, truthiness, arithmetic that can raise *)

Inductive exn : Type :=
| AssertionError (msg : string)
| ValueError (msg : string) (arg : option float)
| ZeroDivisionError
| OverflowError
| TypeError (msg : string)
| FrozenInstanceError (field : string)
| AttributeError (name : string)
| UnboundLocalError (name : string)
| UserError (tag : string).

Inductive result (A : Type) : Type :=
| Ok (a : A)
| Raise (e : exn).
Arguments Ok {A} a.
Arguments Raise {A} e.

Definition bind {A B} (r : result A) (k : A -> result B) : result B :=
  match r with
  | Ok a => k a
  | Raise e => Raise e
  end.

Notation "x <- e ;; k" := (bind e (fun x => k))
  (at level 61, e at next level, right associativity).
Notation "e ;;; k" := (bind e (fun _ => k))
  (at level 61, right associativity).

Definition py_assert (b : bool) (msg : string) : result unit :=
  if b then Ok tt else Raise (AssertionError msg).

(** [bool(x)] of a float: false exactly for [0.0] and [-0.0]. *)
Definition truthy (x : float) : bool := negb (x =? 0).

(** [bool(x)] of an optional float argument, [None] being false. *)
Definition truthy_opt (o : option float) : bool :=
  match o with
  | None => false
  | Some x => truthy x
  end.

(** [o or d] for an optional float argument. *)
Definition or_default (o : option float) (d : float) : float :=
  match o with
  | Some x => if truthy x then x else d
  | None => d
  end.

(** [a / b]: Python raises on a zero divisor of either sign. *)
Definition py_div (a b : float) : result float :=
  if b =? 0 then Raise ZeroDivisionError else Ok (a / b).

(** [x ** 2] in [QuadraticFunction.f]: the square rounded to nearest,
    [OverflowError] when a finite [x] overflows.  CPython hands [**] to the
    C library's [pow], which at some arguments is one unit in the last place
    away from the rounded square; [quadratic_derivative_any_power] below
    covers that unit. *)
Definition py_pow2 (x : float) : result float :=
  let r := x * x in
  if is_infinity r && negb (is_infinity x) then Raise OverflowError else Ok r.

(** [math.sqrt(x)]: a negative argument is a domain error; [-0.0] and NaN
    pass. *)
Definition py_sqrt (x : float) : result float :=
  if x <? 0 then Raise (ValueError "math domain error" None)
  else Ok (sqrt x).

(** [sum(l)]: left to right, starting from [0]. *)
Definition py_sum (l : list float) : float := fold_left add l 0.

(** [[g(a) for a in l]] for a [g] that can raise. *)
Fixpoint map_r {A B} (g : A -> result B) (l : list A) : result (list B) :=
  match l with
  | [] => Ok []
  | a :: l' => b <- g a ;; bs <- map_r g l' ;; Ok (b :: bs)
  end.

(** [for _ in range(n): s = body(s); if <flag>: break]. *)
Fixpoint for_range {S} (n : nat) (body : S -> result (S * bool)) (s : S)
  : result S :=
  match n with
  | O => Ok s
  | Datatypes.S n' =>
      r <- body s ;;
      if snd r then Ok (fst r) else for_range n' body (fst r)
  end.

(** Equality of two results as numbers: Python's [==], and two NaNs alike. *)
Definition num_eq (a b : float) : bool :=
  (a =? b) || (is_nan a && is_nan b).

(** ** The Function dataclasses *)

(** An analytic [p] or [pp] that a subclass defines in place of the
    generic one: what it computes from the fields and [x], and whether its
    signature has the keyword [precision].  The docstring of [Function]
    writes [def p(self, x)], which has not; the docstring of [p] asks an
    override to ignore the parameter, so an override that has it computes
    the same whatever is passed. *)
Record override : Type := {
  takes_precision : bool;
  analytic : list (string * float) -> float -> result float
}.

(** A subclass written by a user of the module: its declared fields with
    their defaults, its [f], the analytic [p] and [pp] when it overrides
    them, and the class attributes it may redefine. *)
Record UserClass : Type := {
  uc_name : string;
  uc_fields : list (string * float);
  uc_f : list (string * float) -> float -> result float;
  uc_p : option override;
  uc_pp : option override;
  uc_DERIV_H : float;
  uc_DERIV_ETA : float;
  uc_DERIV_IS_ABS : bool
}.

Inductive Function : Type :=
| QuadraticFunction (a b c : float)
| TrigFunction (amp omega phase : float)
| HyperbolaFunction (k x0 y0 : float)
| PriceFunction (func : Function) (precision : option float)
| Price2Function (func : Function) (precision : option float)
| UserFunction (cls : UserClass) (fields : list (string * float)).

(** Values that reach a constructor or sit in a dict. *)
Inductive pyval : Type :=
| VNone
| VFloat (x : float)
| VStr (s : string)
| VFunction (F : Function)
| VDict (d : list (string * pyval)).

Definition isinstance_Function (v : pyval) : bool :=
  match v with
  | VFunction _ => true
  | _ => false
  end.

Definition of_option (o : option float) : pyval :=
  match o with
  | Some x => VFloat x
  | None => VNone
  end.

(** [float(v)] of a value handed over as [precision].  A string is taken
    not to read as a number; one that does, as in [float('1.5')], returns
    in Python, and the construction then fails at the assignment as it does
    for a number. *)
Definition py_float (v : pyval) : result float :=
  match v with
  | VFloat x => Ok x
  | VStr _ => Raise (ValueError "could not convert string to float" None)
  | _ => Raise (TypeError "float() argument must be a string or a real number")
  end.

Module Function.

Definition DERIV_H : float := 1e-6.
Definition DERIV_ETA : float := 1e-4.
Definition DERIV_IS_ABS : bool := false.
Definition PI : float := 0x1.921fb54442d18p+1.

(** The class attributes as an instance sees them. *)
Definition deriv_h (F : Function) : float :=
  match F with
  | UserFunction cls _ => uc_DERIV_H cls
  | _ => DERIV_H
  end.

Definition deriv_eta (F : Function) : float :=
  match F with
  | UserFunction cls _ => uc_DERIV_ETA cls
  | _ => DERIV_ETA
  end.

Definition deriv_is_abs (F : Function) : bool :=
  match F with
  | UserFunction cls _ => uc_DERIV_IS_ABS cls
  | _ => DERIV_IS_ABS
  end.

(** The generic methods, over the evaluation rule [self_f] of the instance
    and the class attributes it sees. *)
Section Generic.
Variable self_f : float -> result float.
Variables (H ETA : float) (IS_ABS : bool).

Definition step (h precision : option float) : float :=
  let h := match h with None => H | Some h => h end in
  if truthy_opt precision
  then match precision with Some pr => h * pr | None => h end
  else h.

Definition df_dx_abs_ (x : float) (h precision : option float)
  : result float :=
  let h := step h precision in
  u <- self_f (x + h) ;;
  l <- self_f (x - h) ;;
  py_div (u - l) (2 * h).

Definition d2f_dx2_abs_ (x : float) (h precision : option float)
  : result float :=
  let h := step h precision in
  u <- self_f (x + h) ;;
  l <- self_f (x - h) ;;
  m <- self_f x ;;
  py_div (u + l - 2 * m) (h * h).

Definition df_dx_rel_ (x : float) (eta precision : option float)
  : result float :=
  let eta := match eta with None => ETA | Some e => e end in
  df_dx_abs_ x (if truthy x then Some (x * eta) else None) precision.

Definition d2f_dx2_rel_ (x : float) (eta precision : option float)
  : result float :=
  let eta := match eta with None => ETA | Some e => e end in
  d2f_dx2_abs_ x (if truthy x then Some (x * eta) else None) precision.

Definition p_ (x : float) (precision : option float) : result float :=
  if IS_ABS
  then d <- df_dx_abs_ x None precision ;; Ok (- d)
  else d <- df_dx_rel_ x None precision ;; Ok (- d).

Definition pp_ (x : float) (precision : option float) : result float :=
  if IS_ABS
  then d <- d2f_dx2_abs_ x None precision ;; Ok (- d)
  else d <- d2f_dx2_rel_ x None precision ;; Ok (- d).
End Generic.

(** The call of an override named [name].  [kw] says whether the call
    site passes [precision=...], and passing it to a signature that lacks
    the parameter is a [TypeError], whatever the value passed, [None]
    included. *)
Definition call_override (name : string) (over : override) (kw : bool)
  (fields : list (string * float)) (x : float) : result float :=
  if kw && negb (takes_precision over)
  then Raise (TypeError
                (name ++ "() got an unexpected keyword argument 'precision'")
                %string)
  else analytic over fields x.

(** Dispatch of [self.p] and [self.pp] on the class of [F]: the analytic
    override of a user class, else the generic method over [self_f].  The
    call sites of the module come in two shapes: [self.p(x,
    precision=precision)] in [df_dx] and in the two wrappers ([kw] true),
    and [F.p(x)] in [FunctionVector] ([kw] false, [precision] at its
    default [None]). *)
Definition p_of (F : Function) (self_f : float -> result float)
  (x : float) (kw : bool) (precision : option float) : result float :=
  match F with
  | UserFunction cls fields =>
      match uc_p cls with
      | Some over => call_override "p" over kw fields x
      | None => p_ self_f (deriv_h F) (deriv_eta F) (deriv_is_abs F)
                   x precision
      end
  | _ => p_ self_f (deriv_h F) (deriv_eta F) (deriv_is_abs F) x precision
  end.

Definition pp_of (F : Function) (self_f : float -> result float)
  (x : float) (kw : bool) (precision : option float) : result float :=
  match F with
  | UserFunction cls fields =>
      match uc_pp cls with
      | Some over => call_override "pp" over kw fields x
      | None => pp_ self_f (deriv_h F) (deriv_eta F) (deriv_is_abs F)
                    x precision
      end
  | _ => pp_ self_f (deriv_h F) (deriv_eta F) (deriv_is_abs F) x precision
  end.

Section Methods.
(** [math.sin], which the float primitives do not provide; it raises
    [ValueError] on an infinite argument. *)
Variable m_sin : float -> result float.

(** [self.f(x)] of each variant; the two wrappers evaluate
    [self.func.p(x, precision=self.precision)] and [self.func.pp(...)]. *)
Fixpoint f (F : Function) (x : float) : result float :=
  match F with
  | QuadraticFunction a b c =>
      x2 <- py_pow2 x ;; Ok (a * x2 + b * x + c)
  | TrigFunction amp omega phase =>
      s <- m_sin ((omega * x + phase) * PI) ;; Ok (amp * s)
  | HyperbolaFunction k x0 y0 =>
      q <- py_div k (x - x0) ;; Ok (y0 + q)
  | PriceFunction func precision => p_of func (f func) x true precision
  | Price2Function func precision => pp_of func (f func) x true precision
  | UserFunction cls fields => uc_f cls fields x
  end.

Definition df_dx_abs (F : Function) (x : float) (h precision : option float)
  : result float :=
  df_dx_abs_ (f F) (deriv_h F) x h precision.

Definition d2f_dx2_abs (F : Function) (x : float)
  (h precision : option float) : result float :=
  d2f_dx2_abs_ (f F) (deriv_h F) x h precision.

Definition df_dx_rel (F : Function) (x : float)
  (eta precision : option float) : result float :=
  df_dx_rel_ (f F) (deriv_h F) (deriv_eta F) x eta precision.

Definition d2f_dx2_rel (F : Function) (x : float)
  (eta precision : option float) : result float :=
  d2f_dx2_rel_ (f F) (deriv_h F) (deriv_eta F) x eta precision.

(** [self.p(x, precision=precision)], the keyword passed. *)
Definition p (F : Function) (x : float) (precision : option float)
  : result float :=
  p_of F (f F) x true precision.

(** [F.p(x)], with [x] alone. *)
Definition p_default (F : Function) (x : float) : result float :=
  p_of F (f F) x false None.

Definition df_dx (F : Function) (x : float) (precision : option float)
  : result float :=
  v <- p F x precision ;; Ok (- v).

(** [self.pp(x, precision=precision)], and [F.pp(x)]. *)
Definition pp (F : Function) (x : float) (precision : option float)
  : result float :=
  pp_of F (f F) x true precision.

Definition pp_default (F : Function) (x : float) : result float :=
  pp_of F (f F) x false None.

(** [self(x)]. *)
Definition call (F : Function) (x : float) : result float := f F x.

End Methods.

(** *** Construction *)

(** The [__setattr__] that [@dataclass(frozen=True)] installs: on an
    instance of the class it raises for every name. *)
Definition frozen_setattr (field : string) (v : pyval) : result unit :=
  Raise (FrozenInstanceError field).

(** [PriceFunction(func, precision)]: the generated [__init__] stores both
    arguments, then [__post_init__] runs. *)
Definition PriceFunction_new (func precision : pyval) : result Function :=
  match func with
  | VFunction F =>
      match precision with
      | VNone => Ok (PriceFunction F None)
      | _ =>
          pr <- py_float precision ;;
          frozen_setattr "precision" (VFloat pr) ;;;
          Ok (PriceFunction F (Some pr))
      end
  | _ => Raise (AssertionError "f must be a Function")
  end.

Definition Price2Function_new (func precision : pyval) : result Function :=
  match func with
  | VFunction F =>
      match precision with
      | VNone => Ok (Price2Function F None)
      | _ =>
          pr <- py_float precision ;;
          frozen_setattr "precision" (VFloat pr) ;;;
          Ok (Price2Function F (Some pr))
      end
  | _ => Raise (AssertionError "f must be a Function")
  end.

Definition p_func (F : Function) (precision : pyval) : result Function :=
  PriceFunction_new (VFunction F) precision.

Definition pp_func (F : Function) (precision : pyval) : result Function :=
  Price2Function_new (VFunction F) precision.

(** Dicts with string keys, in insertion order. *)
Fixpoint dict_get {V} (d : list (string * V)) (k : string) : option V :=
  match d with
  | [] => None
  | (k', v) :: d' => if String.eqb k' k then Some v else dict_get d' k
  end.

Fixpoint dict_set {V} (d : list (string * V)) (k : string) (v : V)
  : list (string * V) :=
  match d with
  | [] => [(k, v)]
  | (k', v') :: d' =>
      if String.eqb k' k then (k', v) :: d' else (k', v') :: dict_set d' k v
  end.

(** [{**d, **e}]. *)
Definition dict_merge {V} (d e : list (string * V)) : list (string * V) :=
  fold_left (fun acc kv => dict_set acc (fst kv) (snd kv)) e d.

(** [asdict(self)]: it recurses into a field that holds a dataclass
    instance, which becomes a dict. *)
Fixpoint asdict (F : Function) : list (string * pyval) :=
  match F with
  | QuadraticFunction a b c =>
      [("a", VFloat a); ("b", VFloat b); ("c", VFloat c)]
  | TrigFunction amp omega phase =>
      [("amp", VFloat amp); ("omega", VFloat omega); ("phase", VFloat phase)]
  | HyperbolaFunction k x0 y0 =>
      [("k", VFloat k); ("x0", VFloat x0); ("y0", VFloat y0)]
  | PriceFunction func precision =>
      [("func", VDict (asdict func)); ("precision", of_option precision)]
  | Price2Function func precision =>
      [("func", VDict (asdict func)); ("precision", of_option precision)]
  | UserFunction cls fields => map (fun kv => (fst kv, VFloat (snd kv))) fields
  end.

Definition params (F : Function) : list (string * pyval) := asdict F.

Inductive class : Type :=
| CQuadraticFunction
| CTrigFunction
| CHyperbolaFunction
| CPriceFunction
| CPrice2Function
| CUserFunction (cls : UserClass).

(** [self.__class__]. *)
Definition class_of (F : Function) : class :=
  match F with
  | QuadraticFunction _ _ _ => CQuadraticFunction
  | TrigFunction _ _ _ => CTrigFunction
  | HyperbolaFunction _ _ _ => CHyperbolaFunction
  | PriceFunction _ _ => CPriceFunction
  | Price2Function _ _ => CPrice2Function
  | UserFunction cls _ => CUserFunction cls
  end.

(** The fields a class declares, each with its default when it has one. *)
Definition declared (c : class) : list (string * option pyval) :=
  match c with
  | CQuadraticFunction =>
      [("a", Some (VFloat 0)); ("b", Some (VFloat 0)); ("c", Some (VFloat 0))]
  | CTrigFunction =>
      [("amp", Some (VFloat 1)); ("omega", Some (VFloat 1));
       ("phase", Some (VFloat 0))]
  | CHyperbolaFunction =>
      [("k", Some (VFloat 1)); ("x0", Some (VFloat 0)); ("y0", Some (VFloat 0))]
  | CPriceFunction | CPrice2Function =>
      [("func", None); ("precision", Some VNone)]
  | CUserFunction cls =>
      map (fun kv => (fst kv, Some (VFloat (snd kv)))) (uc_fields cls)
  end.

(** Binding of keyword arguments by the generated [__init__]: a name the
    class does not declare and a required field left out are [TypeError]s. *)
Definition unexpected (c : class) (kwargs : list (string * pyval)) : bool :=
  existsb (fun kv =>
             match dict_get (declared c) (fst kv) with
             | None => true
             | Some _ => false
             end) kwargs.

Definition bind_field (kwargs : list (string * pyval))
  (fd : string * option pyval) : result pyval :=
  match dict_get kwargs (fst fd) with
  | Some v => Ok v
  | None =>
      match snd fd with
      | Some d => Ok d
      | None => Raise (TypeError "missing a required argument")
      end
  end.

Definition bind_args (c : class) (kwargs : list (string * pyval))
  : result (list pyval) :=
  if unexpected c kwargs
  then Raise (TypeError "got an unexpected keyword argument")
  else map_r (bind_field kwargs) (declared c).

(** A numeric field holds a float in this development (the fields are
    annotated [float]); a value of another type, which Python would store
    and fail on at the first evaluation, is refused when the instance is
    built. *)
Definition numeric (v : pyval) : result float :=
  match v with
  | VFloat x => Ok x
  | _ => Raise (TypeError "a numeric field holds a number")
  end.

(** The call of a class with keyword arguments. *)
Definition new (c : class) (kwargs : list (string * pyval))
  : result Function :=
  args <- bind_args c kwargs ;;
  match c, args with
  | CQuadraticFunction, [a; b; c] =>
      a <- numeric a ;; b <- numeric b ;; c <- numeric c ;;
      Ok (QuadraticFunction a b c)
  | CTrigFunction, [amp; omega; phase] =>
      amp <- numeric amp ;; omega <- numeric omega ;;
      phase <- numeric phase ;;
      Ok (TrigFunction amp omega phase)
  | CHyperbolaFunction, [k; x0; y0] =>
      k <- numeric k ;; x0 <- numeric x0 ;; y0 <- numeric y0 ;;
      Ok (HyperbolaFunction k x0 y0)
  | CPriceFunction, [func; precision] => PriceFunction_new func precision
  | CPrice2Function, [func; precision] => Price2Function_new func precision
  | CUserFunction cls, vals =>
      xs <- map_r numeric vals ;;
      Ok (UserFunction cls (combine (map fst (uc_fields cls)) xs))
  | _, _ => Raise (TypeError "wrong number of fields")
  end.

(** [self.update] with keyword arguments [kwargs]. *)
Definition update (F : Function) (kwargs : list (string * pyval))
  : result Function :=
  let params := dict_merge (params F) kwargs in
  new (class_of F) params.

End Function.

(** ** FunctionVector *)

(** The object state of a [FunctionVector]: the dict [vec] from keys to
    coefficients, in insertion order, and the [kernel] field, which the
    dataclass lets be [None] until [__post_init__] has run. *)
Record FunctionVector (Kernel : Type) : Type := {
  vec : list (pyval * float);
  kernel : option Kernel
}.
Arguments vec {Kernel} _.
Arguments kernel {Kernel} _.

(** A Python callable handed to [minimize]: the number of parameters its
    signature declares, its call with positional arguments and its call with
    keyword arguments. *)
Record callable : Type := {
  sig_len : nat;
  call_args : list float -> result float;
  call_kwargs : list (string * float) -> result float
}.

(** The [x0] argument of [minimize]. *)
Inductive start : Type :=
| XNone
| XList (x : list float)
| XDict (x : list (string * float)).

(** A state of the descent, and what [minimize] returns. *)
Inductive point : Type :=
| PList (x : list float)
| PDict (x : list (string * float)).

Inductive outcome : Type :=
| Final (x : point)
| Path (path : list point) (dfdx : point).

Module FunctionVector.

Definition GS_TOLERANCE : float := 1e-6.
Definition GS_ITERATIONS : nat := 1000.
Definition GS_ETA : float := 1e-10.
Definition GS_H : float := 1e-6.
Definition MM_LEARNING_RATE : float := 0.2.
Definition MM_ITERATIONS : Z := 1000.
Definition MM_TOLERANCE : float := 1e-3.
Definition MM_DERIV_H : float := 1e-6.

(** [range(n)] runs [n] times, and not at all for a negative [n]. *)
Definition range_len (n : Z) : nat := Z.to_nat n.

(** [iterations or cls.MM_ITERATIONS]. *)
Definition iterations_or (o : option Z) : Z :=
  match o with
  | Some n => if Z.eqb n 0 then MM_ITERATIONS else n
  | None => MM_ITERATIONS
  end.

(** *** Vectors of floats, as numpy computes on them elementwise *)

(** [cls.e_i(i, n)] for [i < n], as [_minimize_lst] calls it; beyond [n]
    the assignment [result[i] = 1] is an [IndexError] in Python. *)
Definition e_i (i n : nat) : list float :=
  map (fun j => if Nat.eqb j i then 1 else 0) (seq 0 n).

Definition vscale (c : float) (v : list float) : list float :=
  map (fun a => c * a) v.

Definition vadd (u v : list float) : list float :=
  map (fun ab => fst ab + snd ab) (combine u v).

Definition vsub (u v : list float) : list float :=
  map (fun ab => fst ab - snd ab) (combine u v).

Definition e_k (k : string) (dct : list (string * float))
  : list (string * float) :=
  map (fun kv => (fst kv, if String.eqb (fst kv) k then 1 else 0)) dct.

Definition bump (dct : list (string * float)) (k : string) (h : float)
  : list (string * float) :=
  map (fun kv => (fst kv, if String.eqb (fst kv) k then snd kv + h else snd kv))
      dct.

(** *** The optimiser *)

Section Numerics.
(** [x ** 2] on a float: CPython's [float_pow] calls the C library's
    [pow(x, 2.0)] and raises [OverflowError] when that overflows.  The value
    is the library's: it need not be the rounded square, and is taken as it
    comes. *)
Variable float_pow2 : float -> result float.

(** [np.dot(u, v)] of two arrays of floats.  numpy hands it to its BLAS,
    which fixes neither the order of the additions nor whether a product
    is rounded before it is added. *)
Variable np_dot : list float -> list float -> float.

(** **** The two descent loops *)

Section Descent.
Variable func : callable.
Variables learning_rate tol_squared deriv_h : float.

(** The list comprehension that fills [dfdx]: the forward difference of
    [func] along every coordinate. *)
Definition gradient_lst (x : list float) : result (list float) :=
  f0 <- call_args func x ;;
  map_r (fun i =>
           fi <- call_args func (vadd x (vscale deriv_h (e_i i (List.length x)))) ;;
           py_div (fi - f0) deriv_h)
        (seq 0 (List.length x)).

(** One pass of the loop.  Its state is the current [x], the [path] so
    far, and [dfdx] with [norm2_dfdx], unbound until a pass has run; the
    flag says whether the pass ends in [break]. *)
Definition body_lst
  (s : list float * list (list float) * option (list float * float))
  : result (list float * list (list float) * option (list float * float)
            * bool) :=
  let '(x, path, _) := s in
  dfdx <- gradient_lst x ;;
  let x := vsub x (vscale learning_rate dfdx) in
  let path := path ++ [x] in
  let norm2_dfdx := np_dot dfdx dfdx in
  Ok ((x, path, Some (dfdx, norm2_dfdx)), norm2_dfdx <? tol_squared).

Definition _minimize_lst (x0 : list float) (iterations : Z)
  : result (list (list float) * list float * float) :=
  let x := x0 in
  s <- for_range (range_len iterations) body_lst (x, [x], None) ;;
  let '(_, path, last) := s in
  match last with
  | Some (dfdx, norm2_dfdx) => Ok (path, dfdx, norm2_dfdx)
  | None => Raise (UnboundLocalError "dfdx")
  end.

Definition gradient_dct (x : list (string * float))
  : result (list (string * float)) :=
  f0 <- call_kwargs func x ;;
  map_r (fun k =>
           fk <- call_kwargs func (bump x k deriv_h) ;;
           g <- py_div (fk - f0) deriv_h ;;
           Ok (k, g))
        (map fst x).

Definition descend_dct (x dfdx : list (string * float))
  : result (list (string * float)) :=
  map_r (fun k =>
           match Function.dict_get x k, Function.dict_get dfdx k with
           | Some xk, Some gk => Ok (k, xk - learning_rate * gk)
           | _, _ => Raise (UserError "KeyError")
           end)
        (map fst x).

Definition body_dct
  (s : list (string * float) * list (list (string * float))
       * option (list (string * float) * float))
  : result (list (string * float) * list (list (string * float))
            * option (list (string * float) * float) * bool) :=
  let '(x, path, _) := s in
  dfdx <- gradient_dct x ;;
  x <- descend_dct x dfdx ;;
  let path := path ++ [x] in
  squares <- map_r float_pow2 (map snd dfdx) ;;
  let norm2_dfdx := py_sum squares in
  Ok ((x, path, Some (dfdx, norm2_dfdx)), norm2_dfdx <? tol_squared).

Definition _minimize_dct (x0 : list (string * float)) (iterations : Z)
  : result (list (list (string * float)) * list (string * float) * float) :=
  let x := x0 in
  s <- for_range (range_len iterations) body_dct (x, [x], None) ;;
  let '(_, path, last) := s in
  match last with
  | Some (dfdx, norm2_dfdx) => Ok (path, dfdx, norm2_dfdx)
  | None => Raise (UnboundLocalError "dfdx")
  end.
End Descent.

(** [x0 or np.ones(n)]: [None], the empty list and the empty dict are
    false. *)
Definition start_or_ones (x0 : start) (n : nat) : start :=
  match x0 with
  | XNone | XList [] | XDict [] => XList (repeat 1 n)
  | _ => x0
  end.

Definition convergence_failure : exn :=
  ValueError "gradient descent failed to converge" None.

(** [cls.minimize(func, x0=..., ..., return_path=...)].  Once
    [x0 or np.ones(n)] is taken, [x0] is a list or a dict. *)
Definition minimize (func : callable) (x0 : start)
  (learning_rate : option float) (iterations : option Z)
  (tolerance deriv_h : option float) (return_path : bool) : result outcome :=
  let n := sig_len func in
  let x0 := start_or_ones x0 n in
  match x0 with
  | XDict d => call_kwargs func d ;;; Ok tt
  | XList l =>
      py_assert (Nat.eqb (List.length l) n) "x0 must be of size n"
  | XNone => Ok tt
  end ;;;
  let learning_rate := or_default learning_rate MM_LEARNING_RATE in
  let tolerance := or_default tolerance MM_TOLERANCE in
  let deriv_h := or_default deriv_h MM_DERIV_H in
  let iterations := iterations_or iterations in
  tol_squared <- float_pow2 tolerance ;;
  r <- match x0 with
       | XDict d =>
           r <- _minimize_dct func learning_rate tol_squared deriv_h d
                  iterations ;;
           let '(path, dfdx, norm2_dfdx) := r in
           Ok (map PDict path, PDict dfdx, norm2_dfdx)
       | XList l =>
           r <- _minimize_lst func learning_rate tol_squared deriv_h l
                  iterations ;;
           let '(path, dfdx, norm2_dfdx) := r in
           Ok (map PList path, PList dfdx, norm2_dfdx)
       | XNone => Raise (TypeError "x0 is None")
       end ;;
  let '(path, dfdx, norm2_dfdx) := r in
  if return_path then Ok (Path path dfdx)
  else if norm2_dfdx <? tol_squared
       then Ok (Final (last path (PList [])))
       else Raise convergence_failure.

Section Methods.
Variable m_sin : float -> result float.

(** kernel.py is not among the sources: [Kernel] is its class,
    [Kernel_new] the call [Kernel()] and [Kernel_eq] its [==]. *)
Variable Kernel : Type.
Variable Kernel_new : Kernel.
Variable Kernel_eq : Kernel -> Kernel -> bool.

(** vector.py is not among the sources: [DictVector_post_init] is what
    [DictVector.__post_init__] leaves in [self.vec], or what it raises. *)
Variable DictVector_post_init :
  list (pyval * float) -> result (list (pyval * float)).

Local Abbreviation FV := (FunctionVector Kernel).

(** [FunctionVector(vec, kernel=kernel)]: the generated [__init__] stores
    the arguments, then [__post_init__] runs. *)
Definition new (vec0 : list (pyval * float)) (kernel0 : option Kernel)
  : result FV :=
  v <- DictVector_post_init vec0 ;;
  py_assert (forallb isinstance_Function (map fst v))
            "all keys must be of type Function" ;;;
  match kernel0 with
  | None => Ok {| vec := v; kernel := Some Kernel_new |}
  | Some k => Ok {| vec := v; kernel := Some k |}
  end.

Definition wrap (self : FV) (func : pyval) : result FV :=
  py_assert (isinstance_Function func) "func must be of type Function" ;;;
  new [(func, 1)] (kernel self).

(** [self.kernel == other.kernel]. *)
Definition kernel_eq (a b : option Kernel) : bool :=
  match a, b with
  | Some k, Some k' => Kernel_eq k k'
  | None, None => true
  | _, _ => false
  end.

(** [self._kwargs(other)]; the dict [dict(kernel=self.kernel)] it returns
    is given by its one value. *)
Definition _kwargs (self : FV) (other : option FV)
  : result (option Kernel) :=
  match other with
  | Some other =>
      py_assert (kernel_eq (kernel self) (kernel other))
                "kernels must be equal"
  | None => Ok tt
  end ;;;
  Ok (kernel self).

(** A key of [self.vec] called on [x], and its [p] and [pp]. *)
Definition key_call (k : pyval) (x : float) : result float :=
  match k with
  | VFunction F => Function.call m_sin F x
  | _ => Raise (TypeError "object is not callable")
  end.

Definition key_p (k : pyval) (x : float) : result float :=
  match k with
  | VFunction F => Function.p_default m_sin F x
  | _ => Raise (AttributeError "p")
  end.

Definition key_pp (k : pyval) (x : float) : result float :=
  match k with
  | VFunction F => Function.pp_default m_sin F x
  | _ => Raise (AttributeError "pp")
  end.

Definition f (self : FV) (x : float) : result float :=
  terms <- map_r (fun fv => y <- key_call (fst fv) x ;; Ok (y * snd fv))
                 (vec self) ;;
  Ok (py_sum terms).

Definition call (self : FV) (x : float) : result float := f self x.

Definition p (self : FV) (x : float) : result float :=
  terms <- map_r (fun Fv => y <- key_p (fst Fv) x ;; Ok (y * snd Fv))
                 (vec self) ;;
  Ok (py_sum terms).

Definition df_dx (self : FV) (x : float) : result float :=
  v <- p self x ;; Ok (- v).

Definition pp (self : FV) (x : float) : result float :=
  terms <- map_r (fun Fv => y <- key_pp (fst Fv) x ;; Ok (y * snd Fv))
                 (vec self) ;;
  Ok (py_sum terms).

(** One pass of the body of the loop of [goalseek]: the new [x] and
    whether the loop breaks. *)
Definition goalseek_body (func : float -> result float)
  (target h tolerance : float) (x : float) : result (float * bool) :=
  y <- func x ;;
  u <- func (x + h) ;;
  l <- func (x - h) ;;
  m <- py_div (u - l) (2 * h) ;;
  q <- py_div (target - y) m ;;
  let x := x + q in
  r <- func x ;;
  Ok (x, abs (r - target) <? tolerance).

Definition goalseek (self : FV) (target x0 : float) : result float :=
  let x := x0 in
  let iterations := GS_ITERATIONS in
  let tolerance := GS_TOLERANCE in
  let h := if truthy x0 then x0 * GS_ETA else GS_H in
  let func := f self in
  x <- for_range iterations (goalseek_body func target h tolerance) x ;;
  r <- func x ;;
  if tolerance <? abs (r - target)
  then Raise (ValueError "gradient descent failed to converge on"
                         (Some target))
  else Ok x.

Definition minimize1 (self : FV) (x0 : float)
  (learning_rate : option float) (iterations : option Z)
  (tolerance : option float) : result float :=
  let learning_rate :=
    match learning_rate with None => MM_LEARNING_RATE | Some v => v end in
  let tolerance :=
    match tolerance with None => MM_TOLERANCE | Some v => v end in
  let x := x0 in
  x <- for_range (range_len (iterations_or iterations))
         (fun x =>
            d <- df_dx self x ;;
            let x := x - learning_rate * d in
            g <- p self x ;;
            Ok (x, abs g <? tolerance))
         x ;;
  g <- p self x ;;
  if abs g <? tolerance then Ok x else Raise convergence_failure.

(** The rest of what kernel.py provides, again as parameters: the test
    [kernel.in_domain(x)], the weight [kernel(x)] and
    [kernel.integrate(func, steps=steps, method=method)]. *)
Variable Kernel_in_domain : Kernel -> float -> result bool.
Variable Kernel_call : Kernel -> float -> result float.
Variable Kernel_integrate :
  Kernel -> (float -> result float) -> option Z -> option string
  -> result float.

Definition kernel_in_domain (self : FV) (x : float) : result bool :=
  match kernel self with
  | Some k => Kernel_in_domain k x
  | None => Raise (AttributeError "in_domain")
  end.

Definition kernel_call (self : FV) (x : float) : result float :=
  match kernel self with
  | Some k => Kernel_call k x
  | None => Raise (TypeError "object is not callable")
  end.

(** [self.restricted(func, x)]; with [x] omitted the method returns the
    function [restricted self func] itself. *)
Definition restricted (self : FV) (func : float -> result float) (x : float)
  : result float :=
  inside <- kernel_in_domain self x ;;
  if inside then func x else Ok 0.

(** [self.apply_kernel(func, x)], likewise. *)
Definition apply_kernel (self : FV) (func : float -> result float)
  (x : float) : result float :=
  y <- func x ;;
  w <- kernel_call self x ;;
  Ok (y * w).

Definition f_r (self : FV) (x : float) : result float :=
  restricted self (f self) x.

Definition f_k (self : FV) (x : float) : result float :=
  apply_kernel self (f self) x.

Definition integrate_func (self : FV) (func : option (float -> result float))
  (steps : option Z) (method : option string) : result float :=
  let func := match func with None => f self | Some g => g end in
  match kernel self with
  | Some k => Kernel_integrate k func steps method
  | None => Raise (AttributeError "integrate")
  end.

Definition integrate (self : FV) (steps : option Z) (method : option string)
  : result float :=
  integrate_func self (Some (f self)) steps method.

Definition distance2 (self : FV) (func : option (float -> result float))
  (steps : option Z) (method : option string) : result float :=
  let integrand :=
    match func with
    | Some g =>
        fun x =>
          a <- f self x ;; b <- g x ;;
          s <- float_pow2 (a - b) ;;
          w <- kernel_call self x ;;
          Ok (s * w)
    | None =>
        fun x =>
          a <- f self x ;;
          s <- float_pow2 a ;;
          w <- kernel_call self x ;;
          Ok (s * w)
    end in
  integrate_func self (Some integrand) steps method.

Definition distance (self : FV) (func : option (float -> result float))
  (steps : option Z) (method : option string) : result float :=
  d <- distance2 self func steps method ;; py_sqrt d.

Definition norm2 (self : FV) (steps : option Z) (method : option string)
  : result float :=
  distance2 self None steps method.

Definition norm (self : FV) (steps : option Z) (method : option string)
  : result float :=
  d <- norm2 self steps method ;; py_sqrt d.

(** The function [optimizer_func] that [curve_fit] defines and hands to
    [minimize]: its signature is one var-keyword parameter, so it takes no
    positional argument. *)
Definition optimizer_func (self : FV) (func : Function) : callable :=
  {| sig_len := 1;
     call_args := fun xs =>
       match xs with
       | [] =>
           func1 <- Function.update func [] ;;
           distance2 self (Some (Function.call m_sin func1)) None None
       | _ => Raise (TypeError "takes 0 positional arguments")
       end;
     call_kwargs := fun params =>
       func1 <- Function.update func
                  (map (fun kv => (fst kv, VFloat (snd kv))) params) ;;
       distance2 self (Some (Function.call m_sin func1)) None None |}.

(** [self.curve_fit(func, params0, ...)], the keyword arguments being those
    of [minimize]. *)
Definition curve_fit (self : FV) (func : Function)
  (params0 : list (string * float)) (learning_rate : option float)
  (iterations : option Z) (tolerance deriv_h : option float)
  (return_path : bool) : result outcome :=
  minimize (optimizer_func self func) (XDict params0) learning_rate
    iterations tolerance deriv_h return_path.

(** Modelled from the spec: vector.py, where [DictVector] defines the
    arithmetic of vectors, is not among the sources.  The spec has
    "arithmetic/combination between two FunctionVectors is only valid when
    their Kernels are equal (enforced by assertion failure otherwise)":
    a combination [op] of two vectors builds its result with the keyword
    arguments that [self._kwargs(other)] returns. *)
Definition combine
  (op : list (pyval * float) -> list (pyval * float) -> list (pyval * float))
  (self other : FV) : result FV :=
  kw <- _kwargs self (Some other) ;;
  new (op (vec self) (vec other)) kw.

End Methods.

End Numerics.

End FunctionVector.

(** ** ContractsManager (fastlane_bot/events/managers/contracts.py)

    The token key, the cache of token contracts and the choice of the pool
    contract.  The web3 library, the ABIs and the exchange objects are not
    among the sources: building a contract object is a parameter, which may
    raise. *)

Module ContractsManager.

(** [str(o)] of an optional string, as an f-string and [print] render
    it. *)
Definition py_str (o : option string) : string :=
  match o with
  | Some s => s
  | None => "None"
  end.

(** [addr[-4:]]: the last four characters, or all of a shorter string. *)
Definition last4 (addr : string) : string :=
  substring (String.length addr - 4) 4 addr.

(** [get_tkn_key(symbol, addr)]: what it prints, and what it returns or
    raises. *)
Definition get_tkn_key (symbol addr : option string)
  : list string * result string :=
  let suspicious :=
    match symbol with
    | None => true
    | Some s => String.eqb s "None"
    end
    || match addr with None => true | Some _ => false end in
  (if suspicious then [py_str addr] else [],
   match addr with
   | Some a => Ok (py_str symbol ++ "-" ++ last4 a)%string
   | None => Raise (TypeError "'NoneType' object is not subscriptable")
   end).

(** Where a contract object is built: on the node the manager is
    connected to, or on a Tenderly fork. *)
Inductive provider : Type :=
| Node
| TenderlyFork (fork_id : string).

(** [bool(o)] of an optional string. *)
Definition str_truthy (o : option string) : bool :=
  match o with
  | None => false
  | Some s => negb (String.eqb s "")
  end.

Definition is_name (o : option string) (name : string) : bool :=
  match o with
  | Some s => String.eqb s name
  | None => false
  end.

Section Contracts.
Variable Contract : Type.
(** [w3.eth.contract(abi=ERC20_ABI, address=address)]. *)
Variable erc20_contract : provider -> string -> result Contract.

(** [get_or_create_token_contracts(web3, erc20_contracts, address,
    exchange_name, tenderly_fork_id)]: the contract it returns, and the
    dict [erc20_contracts], which it may have added to. *)
Definition get_or_create_token_contracts
  (erc20_contracts : list (string * Contract)) (address : string)
  (exchange_name tenderly_fork_id : option string)
  : result (Contract * list (string * Contract)) :=
  if is_name exchange_name "bancor_pol" && str_truthy tenderly_fork_id
  then
    contract <- erc20_contract (TenderlyFork (py_str tenderly_fork_id))
                  address ;;
    Ok (contract, erc20_contracts)
  else
    match Function.dict_get erc20_contracts address with
    | Some contract => Ok (contract, erc20_contracts)
    | None =>
        contract <- erc20_contract Node address ;;
        Ok (contract, Function.dict_set erc20_contracts address contract)
    end.

(** The manager, as [get_pool_contract] reads it: the exchanges by name,
    the pool contracts by exchange and then by address, and the two
    addresses of the configuration. *)
Variable Exchange : Type.
Variable ABI : Type.
Variable get_abi : Exchange -> result ABI.
Variable pool_contract : string -> ABI -> result Contract.

Record manager : Type := {
  exchanges : list (string * Exchange);
  pool_contracts : list (string * list (string * Contract));
  BANCOR_V3_NETWORK_INFO_ADDRESS : string;
  BANCOR_POL_ADDRESS : string
}.

Definition contract_key (self : manager) (exchange_name address : string)
  : string :=
  if String.eqb exchange_name "bancor_v3"
  then BANCOR_V3_NETWORK_INFO_ADDRESS self
  else if String.eqb exchange_name "bancor_pol"
       then BANCOR_POL_ADDRESS self
       else address.

(** [self.get_pool_contract(exchange_name, address)]; the default that
    [dict.get] is given is built before [get] looks the key up. *)
Definition get_pool_contract (self : manager) (exchange_name address : string)
  : result (option Contract) :=
  match Function.dict_get (exchanges self) exchange_name with
  | None => Ok None
  | Some exchange =>
      let key := contract_key self exchange_name address in
      match Function.dict_get (pool_contracts self) exchange_name with
      | None => Raise (UserError "KeyError")
      | Some pools =>
          abi <- get_abi exchange ;;
          fresh <- pool_contract key abi ;;
          match Function.dict_get pools key with
          | Some cached => Ok (Some cached)
          | None => Ok (Some fresh)
          end
      end
  end.

End Contracts.

End ContractsManager.

(** ** What the statements below speak of *)

(** The invariant of a constructed vector: a kernel is set and every key
    is a Function. *)
Definition invariant {Kernel} (v : FunctionVector Kernel) : bool :=
  match kernel v with Some _ => true | None => false end
  && forallb isinstance_Function (map fst (vec v)).

(** The linear combination as the documentation writes it, the sum over the
    entries of coefficient times value, taken from [0] in the order of the
    entries. *)
Definition weighted_sum (cs ys : list float) : float :=
  fold_left (fun acc cy => acc + fst cy * snd cy) (combine cs ys) 0.

(** The point [x] with [h] added along coordinate [i], as numpy computes
    [x + h * e_i]: [x[j] + h * 1] at [i] and [x[j] + h * 0] elsewhere. *)
Definition shifted (x : list float) (i : nat) (h : float) : list float :=
  map (fun j => nth j x 0 + h * (if Nat.eqb j i then 1 else 0))
      (seq 0 (List.length x)).

(** [g] is the forward difference of [call] from [x] to [x'] over the step
    [h]: both calls return, and [g] is the difference of what they return,
    divided by [h]. *)
Definition forward_difference {X} (call : X -> result float) (h : float)
  (x x' : X) (g : float) : Prop :=
  exists f0 f1, call x = Ok f0 /\ call x' = Ok f1 /\ g = (f1 - f0) / h.

(** [g] is the forward-difference gradient of [func] at the state [x]:
    it has an entry per coordinate (per key, under the key), which is the
    forward difference of [func] from [x] to [x] moved by [h] along that
    coordinate alone. *)
Definition is_gradient (func : callable) (h : float) (x g : point) : Prop :=
  match x, g with
  | PList x, PList g =>
      List.length g = List.length x
      /\ forall i, (i < List.length x)%nat ->
           forward_difference (call_args func) h x (shifted x i h)
                              (nth i g 0)
  | PDict x, PDict g =>
      Forall2 (fun xk gk =>
                 fst gk = fst xk
                 /\ forward_difference (call_kwargs func) h x
                      (FunctionVector.bump x (fst xk) h) (snd gk))
              x g
  | _, _ => False
  end.

(** [n2] is the squared norm of the gradient [g] as the loops compute it:
    [np.dot(g, g)] for an array, and for a dict the [sum] of the [v ** 2]
    of its values. *)
Definition is_norm2 (float_pow2 : float -> result float)
  (np_dot : list float -> list float -> float) (g : point) (n2 : float)
  : Prop :=
  match g with
  | PList g => n2 = np_dot g g
  | PDict g =>
      exists squares,
        Forall2 (fun gk sq => float_pow2 (snd gk) = Ok sq) g squares
        /\ n2 = py_sum squares
  end.

(** [x'] is [x] moved against the gradient [g]: each coordinate (each
    key) of [x'] is that of [x] minus [learning_rate] times that of [g]. *)
Definition moves (learning_rate : float) (x g x' : point) : Prop :=
  match x, g, x' with
  | PList x, PList g, PList x' =>
      List.length x' = List.length x
      /\ forall j, (j < List.length x)%nat ->
           nth j x' 0 = nth j x 0 - learning_rate * nth j g 0
  | PDict x, PDict g, PDict x' =>
      Forall2 (fun xk xk' =>
                 fst xk' = fst xk
                 /\ exists v gk,
                     Function.dict_get x (fst xk) = Some v
                     /\ Function.dict_get g (fst xk) = Some gk
                     /\ snd xk' = v - learning_rate * gk)
              x x'
  | _, _, _ => False
  end.

(** A loop that computes a gradient, moves, records the new state, and
    breaks when the squared norm is below [tol2]: the shape both descent
    loops have. *)
Definition descent_body {X G} (grad : X -> result G)
  (desc : X -> G -> result X) (norm : G -> result float) (tol2 : float)
  (s : X * list X * option (G * float))
  : result (X * list X * option (G * float) * bool) :=
  let '(x, path, _) := s in
  g <- grad x ;;
  x' <- desc x g ;;
  n2 <- norm g ;;
  Ok ((x', path ++ [x'], Some (g, n2)), n2 <? tol2).

(** A run of [k = List.length xs] passes from [x] under a budget of [n]:
    every pass [i] finds the gradient at state [i], its squared norm, and
    moves to state [i+1]; a pass whose squared norm is below [tol2] is the
    last one; the last one is below [tol2] or exhausts the budget, and
    leaves its gradient and squared norm in [g_last] and [n2_last]. *)
Definition descent_run {X G} (is_grad : X -> G -> Prop)
  (is_moved : X -> G -> X -> Prop) (is_norm : G -> float -> Prop)
  (tol2 : float) (d : X) (n : nat) (x : X) (xs : list X) (g_last : G)
  (n2_last : float) : Prop :=
  (1 <= List.length xs <= n)%nat
  /\ forall i, (i < List.length xs)%nat ->
       exists g n2,
         is_grad (nth i (x :: xs) d) g
         /\ is_norm g n2
         /\ is_moved (nth i (x :: xs) d) g (nth (S i) (x :: xs) d)
         /\ ((n2 <? tol2) = true -> S i = List.length xs)
         /\ (S i = List.length xs ->
             ((n2 <? tol2) = true \/ List.length xs = n)
             /\ g_last = g /\ n2_last = n2).

(** The integrand of a squared distance: at [x], the square of [F(x)]
    less [G(x)] (of [F(x)] alone when there is no [G]), as [sq] squares it,
    times the weight [W(x)]; it raises what the first of these to fail
    raises. *)
Definition weighted_square (sq : float -> result float)
  (F : float -> result float) (G : option (float -> result float))
  (W : float -> result float) (x : float) : result float :=
  a <- F x ;;
  d <- match G with
       | Some g => b <- g x ;; Ok (a - b)
       | None => Ok a
       end ;;
  s <- sq d ;;
  w <- W x ;;
  Ok (s * w).

(** The state a call of [minimize] starts from. *)
Definition start_point (x0 : start) (n : nat) : point :=
  match FunctionVector.start_or_ones x0 n with
  | XDict d => PDict d
  | XList l => PList l
  | XNone => PList []
  end.

(** The classes whose fields are numbers, that is all but the two
    wrappers. *)
Definition numeric_class (F : Function) : bool :=
  match F with
  | PriceFunction _ _ | Price2Function _ _ => false
  | _ => true
  end.

(** An instance holds the fields its class declares, each once and in the
    order of the declaration.  The generated [__init__] makes it so; for an
    instance of a user class, whose fields are a list here, it is a
    condition. *)
Definition has_declared_fields (F : Function) : Prop :=
  match F with
  | UserFunction cls fields =>
      map fst fields = map fst (uc_fields cls) /\ NoDup (map fst fields)
  | _ => True
  end.

(** [hits body k x x']: the loop body, run from [x], breaks for the first
    time in its [k]-th pass, which leaves [x']. *)
Inductive hits {S} (body : S -> result (S * bool)) : nat -> S -> S -> Prop :=
| hits_now x x' :
    body x = Ok (x', true) -> hits body 1 x x'
| hits_later k x x' x'' :
    body x = Ok (x', false) -> hits body k x' x'' ->
    hits body (Datatypes.S k) x x''.

(** ** Sample inputs

    The instances and vectors the closed lemmas below evaluate.  No sample
    involves [TrigFunction], so [math.sin] is never called on them;
    [sample_sin] stands in for it.  The sample kernel class has one instance
    per number and compares by it; the sample [DictVector.__post_init__]
    leaves the mapping as it is. *)

Definition sample_sin (x : float) : result float := Ok x.

Definition sample_post_init (v : list (pyval * float))
  : result (list (pyval * float)) := Ok v.

(** [QuadraticFunction(a=1)], that is [x**2]. *)
Definition square : Function := QuadraticFunction 1 0 0.

(** [QuadraticFunction(a=1e12, b=-1e12, c=1e-6)]: its value at [1] is
    [1e-6], and it is so steep there that the root next to [1] lies closer
    to [1] than any other float does. *)
Definition steep : Function := QuadraticFunction 1e12 (-1e12) 1e-6.

Definition steep_vector : FunctionVector nat :=
  {| vec := [(VFunction steep, 1)]; kernel := Some 0%nat |}.

(** [FunctionVector({square: 3, steep: 0.5})] over kernel [0], one over
    kernel [1], and a mapping with a key that is no Function. *)
Definition two_vector : FunctionVector nat :=
  {| vec := [(VFunction square, 3); (VFunction steep, 0.5)];
     kernel := Some 0%nat |}.

Definition other_vector : FunctionVector nat :=
  {| vec := [(VFunction square, 1)]; kernel := Some 1%nat |}.

Definition bad_mapping : list (pyval * float) :=
  [(VFunction square, 1); (VStr "square", 2)].

(** Union of two mappings, the second one's entries last. *)
Definition sample_op (u v : list (pyval * float)) : list (pyval * float) :=
  u ++ v.

(** The hyperbola of the docstring of [Function], with its analytic
    [def p(self, x)] and [def pp(self, x)]. *)
Definition HyperbolaClass : UserClass := {|
  uc_name := "HyperbolaFunction";
  uc_fields := [("k", 1)];
  uc_f := fun fields x =>
            match fields with
            | [(_, k)] => py_div k x
            | _ => Raise (AttributeError "k")
            end;
  uc_p := Some {| takes_precision := false;
                  analytic := fun fields x =>
                    match fields with
                    | [(_, k)] => py_div (- k) (x * x)
                    | _ => Raise (AttributeError "k")
                    end |};
  uc_pp := Some {| takes_precision := false;
                   analytic := fun fields x =>
                     match fields with
                     | [(_, k)] => py_div (2 * k) (x * x * x)
                     | _ => Raise (AttributeError "k")
                     end |};
  uc_DERIV_H := Function.DERIV_H;
  uc_DERIV_ETA := Function.DERIV_ETA;
  uc_DERIV_IS_ABS := Function.DERIV_IS_ABS
|}.

(** A C library whose [pow(x, 2.0)] is the rounded square, and a BLAS
    that rounds each product and adds from left to right: the platform the
    closed lemmas on the optimiser evaluate on. *)
Definition sample_pow2 : float -> result float := py_pow2.

Definition sample_dot (u v : list float) : float :=
  py_sum (map (fun ab => fst ab * snd ab) (combine u v)).

(** [lambda x, y: (x-3)*(x-3) + (y+2)*(y+2)]. *)
Definition bowl : callable := {|
  sig_len := 2;
  call_args := fun xs =>
    match xs with
    | [x; y] => Ok ((x - 3) * (x - 3) + (y + 2) * (y + 2))
    | _ => Raise (TypeError "takes 2 positional arguments")
    end;
  call_kwargs := fun kw =>
    match Function.dict_get kw "x", Function.dict_get kw "y", kw with
    | Some x, Some y, [_; _] => Ok ((x - 3) * (x - 3) + (y + 2) * (y + 2))
    | _, _, _ => Raise (TypeError "got an unexpected keyword argument")
    end
|}.

(** The values of the two keys of [two_vector] at [2]. *)
Definition two_values : list float :=
  Eval vm_compute in
    match map_r (fun kv => FunctionVector.key_call sample_sin (fst kv) 2)
                (vec two_vector) with
    | Ok ys => ys
    | Raise _ => []
    end.

(** [x**2] is the square rounded to nearest here; the C library behind
    Python's [**] may be off by one unit in the last place.  [square_with]
    is [x**2] over a power that errs by [lo] below [1] and by [hi] from [1]
    on, and [roundings] lists the three errors: none, one unit up, one
    unit down. *)
Definition square_with (lo hi : float -> float) : Function :=
  UserFunction
    {| uc_name := "QuadraticFunction";
       uc_fields := [];
       uc_f := fun _ x =>
                 Ok (1 * (if x <? 1 then lo (x * x) else hi (x * x))
                     + 0 * x + 0);
       uc_p := None;
       uc_pp := None;
       uc_DERIV_H := Function.DERIV_H;
       uc_DERIV_ETA := Function.DERIV_ETA;
       uc_DERIV_IS_ABS := Function.DERIV_IS_ABS |}
    [].

Definition roundings : list (float -> float) :=
  [fun y => y; next_up; next_down].

(** [FunctionVector({QuadraticFunction(b=1, c=-5): 1})], that is [x - 5],
    and what one Newton step of [goalseek] from [1] makes of it. *)
Definition line_vector : FunctionVector nat :=
  {| vec := [(VFunction (QuadraticFunction 0 1 (-5)), 1)];
     kernel := Some 0%nat |}.

Definition line_root : float :=
  Eval vm_compute in
    match FunctionVector.goalseek sample_sin nat line_vector 0 1 with
    | Ok x => x
    | Raise _ => 0
    end.

(** A vector whose only key is constant: its slope is flat everywhere. *)
Definition flat_vector : FunctionVector nat :=
  {| vec := [(VFunction (QuadraticFunction 0 0 3), 1)];
     kernel := Some 0%nat |}.

(** The hyperbola [1/(x-2)], alone in a vector. *)
Definition pole_vector : FunctionVector nat :=
  {| vec := [(VFunction (HyperbolaFunction 1 2 0), 1)];
     kernel := Some 0%nat |}.

(** [FunctionVector({square: 1})] and where [minimize1] takes it from
    [1]. *)
Definition square_vector : FunctionVector nat :=
  {| vec := [(VFunction square, 1)]; kernel := Some 0%nat |}.

Definition square_minimum : float :=
  Eval vm_compute in
    match FunctionVector.minimize1 sample_sin nat square_vector 1
            None None None with
    | Ok x => x
    | Raise _ => 1
    end.

(** The prices and second prices of the two keys of [two_vector] at
    [2]. *)
Definition two_prices : list float :=
  Eval vm_compute in
    match map_r (fun kv => FunctionVector.key_p sample_sin (fst kv) 2)
                (vec two_vector) with
    | Ok ys => ys
    | Raise _ => []
    end.

Definition two_second_prices : list float :=
  Eval vm_compute in
    match map_r (fun kv => FunctionVector.key_pp sample_sin (fst kv) 2)
                (vec two_vector) with
    | Ok ys => ys
    | Raise _ => []
    end.

(** A sample kernel: the weight is [1] everywhere, and the integral of a
    function is its value at [2]. *)
Definition sample_weight (k : nat) (x : float) : result float := Ok 1.

Definition sample_rule (k : nat) (func : float -> result float)
  (steps : option Z) (method : option string) : result float :=
  func 2.

(** The docstring's hyperbola with [k = 1], as an instance of a user
    class. *)
Definition user_hyperbola : Function :=
  UserFunction HyperbolaClass [("k", 1)].

(** Where the bowl ends under the default budget. *)
Definition bowl_end : point :=
  Eval vm_compute in
    match FunctionVector.minimize sample_pow2 sample_dot bowl (XList [0; 0])
            None None None None false with
    | Ok (Final x) => x
    | _ => PList []
    end.

(** Sample contracts are numbers: the contract built for an address is
    the length of the address, plus one on a fork. *)
Definition sample_erc20 (p : ContractsManager.provider) (address : string)
  : result nat :=
  match p with
  | ContractsManager.Node => Ok (String.length address)
  | ContractsManager.TenderlyFork _ => Ok (S (String.length address))
  end.

Definition sample_get_abi (exchange : nat) : result nat := Ok exchange.

Definition failing_pool_contract (address : string) (abi : nat) : result nat :=
  Raise (ValueError "invalid address" None).

Definition sample_manager : ContractsManager.manager nat nat :=
  {| ContractsManager.exchanges := [("carbon_v1", 1%nat)];
     ContractsManager.pool_contracts := [("carbon_v1", [("0xC537", 42%nat)])];
     ContractsManager.BANCOR_V3_NETWORK_INFO_ADDRESS := "0x8E30";
     ContractsManager.BANCOR_POL_ADDRESS := "0xD06C" |}.

(** ** Facts about binary64 arithmetic *)

Lemma float_mul_comm (a b : float) : a * b = b * a.
Proof.
  apply Prim2SF_inj. rewrite !mul_spec. unfold SF64mul, SFmul.
  destruct (Prim2SF a) as [sa|sa| |sa ma ea],
           (Prim2SF b) as [sb|sb| |sb mb eb];
    try reflexivity; try (now rewrite xorb_comm).
  now rewrite xorb_comm, Pos.mul_comm, Z.add_comm.
Qed.

Lemma SFeqb_refl (x : spec_float) : x <> S754_nan -> SFeqb x x = true.
Proof.
  unfold SFeqb, SFcompare.
  destruct x as [s|s| |s m e]; intros Hx; try congruence;
    destruct s; try reflexivity;
    now rewrite Z.compare_refl, Pos.compare_cont_refl.
Qed.

(** Adding to the [0] that [sum] starts from changes no number: only the
    sign of a negative zero is lost, which [==] does not see. *)
Lemma float_add_0_l (a : float) : num_eq (0 + a) a = true.
Proof.
  unfold num_eq, is_nan. rewrite !eqb_spec, add_spec.
  change (Prim2SF 0) with (S754_zero false).
  unfold SF64add, SFadd.
  destruct (Prim2SF a) as [s|s| |s m e] eqn:Ha; try reflexivity.
  - now destruct s.
  - now rewrite SFeqb_refl.
  - now rewrite SFeqb_refl.
Qed.

Lemma float_add_0_l_eqb (a : float) : is_nan a = false -> (0 + a =? a) = true.
Proof.
  intros Hn. pose proof (float_add_0_l a) as H.
  unfold num_eq in H. rewrite Hn, andb_false_r, orb_false_r in H. exact H.
Qed.

Lemma float_opp_involutive (a : float) : - - a = a.
Proof.
  apply Prim2SF_inj. rewrite !opp_spec.
  destruct (Prim2SF a); simpl; now rewrite ?negb_involutive.
Qed.

(** ** The error monad *)

Lemma bind_Ok_inv {A B} (r : result A) (k : A -> result B) (b : B) :
  bind r k = Ok b -> exists a, r = Ok a /\ k a = Ok b.
Proof. destruct r as [a|e]; simpl; [eauto | discriminate]. Qed.

(** ** Function: construction and update *)

(** C1.  Building a [PriceFunction] or a [Price2Function] over a Function
    [w] with a numeric [precision] does not yield an instance that holds
    [float(precision)]: [__post_init__] computes the float and assigns it
    to [self.precision], and the class being frozen the assignment raises
    [FrozenInstanceError].  So does the keyword call of the class, and so
    do [p_func] and [pp_func].  Only [precision=None] builds. *)
Theorem precision_assignment_is_frozen (w : Function) (pr : float) :
  Function.PriceFunction_new (VFunction w) (VFloat pr)
    = Raise (FrozenInstanceError "precision")
  /\ Function.Price2Function_new (VFunction w) (VFloat pr)
    = Raise (FrozenInstanceError "precision")
  /\ Function.new Function.CPriceFunction
       [("func", VFunction w); ("precision", VFloat pr)]
    = Raise (FrozenInstanceError "precision")
  /\ Function.p_func w (VFloat pr) = Raise (FrozenInstanceError "precision")
  /\ Function.pp_func w (VFloat pr) = Raise (FrozenInstanceError "precision")
  /\ Function.PriceFunction_new (VFunction w) VNone = Ok (PriceFunction w None).
Proof. repeat split. Qed.

(** No value of [precision] other than [None] lets the construction
    through. *)
Lemma precision_given_never_builds (w : Function) (pr : pyval) :
  pr <> VNone ->
  exists e, Function.PriceFunction_new (VFunction w) pr = Raise e
            /\ Function.Price2Function_new (VFunction w) pr = Raise e.
Proof.
  intros Hpr. destruct pr; try congruence; simpl; eauto.
Qed.

(** C5.  [update()] of a wrapper does not return an object equal to it:
    [asdict] has turned the wrapped Function into a dict of its fields, and
    [__post_init__] of the copy refuses it.  The same holds whatever keyword
    arguments are given, unless [func] itself is among them. *)
Theorem update_of_a_wrapper_raises (w : Function) (precision : option float) :
  Function.update (PriceFunction w precision) []
    = Raise (AssertionError "f must be a Function")
  /\ Function.update (Price2Function w precision) []
    = Raise (AssertionError "f must be a Function")
  /\ forall v,
      Function.update (PriceFunction w precision) [("precision", v)]
      = Raise (AssertionError "f must be a Function").
Proof. repeat split. Qed.

(** What [update] does on the three classes whose fields are numbers. *)
Lemma update_nothing_Quadratic (a b c : float) :
  Function.update (QuadraticFunction a b c) [] = Ok (QuadraticFunction a b c).
Proof. reflexivity. Qed.

Lemma update_nothing_Trig (amp omega phase : float) :
  Function.update (TrigFunction amp omega phase) []
  = Ok (TrigFunction amp omega phase).
Proof. reflexivity. Qed.

Lemma update_nothing_Hyperbola (k x0 y0 : float) :
  Function.update (HyperbolaFunction k x0 y0) []
  = Ok (HyperbolaFunction k x0 y0).
Proof. reflexivity. Qed.

Lemma update_one_Quadratic (a b c v : float) :
  Function.update (QuadraticFunction a b c) [("a", VFloat v)]
    = Ok (QuadraticFunction v b c)
  /\ Function.update (QuadraticFunction a b c) [("b", VFloat v)]
    = Ok (QuadraticFunction a v c)
  /\ Function.update (QuadraticFunction a b c) [("c", VFloat v)]
    = Ok (QuadraticFunction a b v).
Proof. repeat split. Qed.

Lemma update_one_Hyperbola (k x0 y0 v : float) :
  Function.update (HyperbolaFunction k x0 y0) [("k", VFloat v)]
    = Ok (HyperbolaFunction v x0 y0)
  /\ Function.update (HyperbolaFunction k x0 y0) [("x0", VFloat v)]
    = Ok (HyperbolaFunction k v y0)
  /\ Function.update (HyperbolaFunction k x0 y0) [("y0", VFloat v)]
    = Ok (HyperbolaFunction k x0 v).
Proof. repeat split. Qed.

Lemma update_unknown_name (a b c : float) (name : string) (v : pyval) :
  Function.dict_get (Function.declared Function.CQuadraticFunction) name = None ->
  Function.update (QuadraticFunction a b c) [(name, v)]
  = Raise (TypeError "got an unexpected keyword argument").
Proof.
  intros Hname.
  assert (Function.unexpected Function.CQuadraticFunction
            (Function.dict_merge (Function.params (QuadraticFunction a b c))
                                 [(name, v)]) = true) as Hun.
  { cbn -[String.eqb] in Hname.
    destruct (String.eqb "a" name) eqn:Ea; [discriminate Hname|].
    destruct (String.eqb "b" name) eqn:Eb; [discriminate Hname|].
    destruct (String.eqb "c" name) eqn:Ec; [discriminate Hname|].
    cbn -[String.eqb]. rewrite Ea, Eb, Ec.
    cbn -[String.eqb]. now rewrite Ea, Eb, Ec. }
  unfold Function.update. cbv zeta.
  change (Function.class_of (QuadraticFunction a b c))
    with Function.CQuadraticFunction.
  unfold Function.new, Function.bind_args. now rewrite Hun.
Qed.

(** ** Function: derivatives *)

Section FunctionDerivatives.
Variable m_sin : float -> result float.

(** C7.  [df_dx] is not the negation of [p] on the class that the
    docstring of [Function] gives as the way to supply an analytic price.
    [df_dx] calls [self.p(x, precision=precision)]; the docstring's
    override is [def p(self, x)], so that call is a [TypeError], whatever
    the precision and at every [x], where the price itself, called as
    [p(x)], returns what the override computes.  For the hyperbola of the
    docstring with [k = 1]: [p(2)] is [-0.25], and [df_dx(2)] raises.  The
    vector, which calls [F.p(x)], does not fail on the same instance: its
    [df_dx(2)] is [0.25].  Where the override has the parameter, [df_dx]
    does negate the price. *)
Theorem df_dx_fails_on_the_docstring_override :
  (forall cls over fields x precision,
      uc_p cls = Some over -> takes_precision over = false ->
      Function.df_dx m_sin (UserFunction cls fields) x precision
      = Raise (TypeError
                 "p() got an unexpected keyword argument 'precision'")
      /\ Function.p_default m_sin (UserFunction cls fields) x
         = analytic over fields x)
  /\ Function.p_default m_sin user_hyperbola 2 = Ok (-0.25)
  /\ Function.df_dx m_sin user_hyperbola 2 None
     = Raise (TypeError "p() got an unexpected keyword argument 'precision'")
  /\ FunctionVector.df_dx m_sin nat
       {| vec := [(VFunction user_hyperbola, 1)]; kernel := Some 0%nat |} 2
     = Ok 0.25
  /\ (forall cls over fields x precision,
         uc_p cls = Some over -> takes_precision over = true ->
         Function.df_dx m_sin (UserFunction cls fields) x precision
         = (v <- Function.p_default m_sin (UserFunction cls fields) x ;;
            Ok (- v))).
Proof.
  split; [|split; [|split; [|split]]]; try reflexivity.
  - intros cls over fields x precision Hover Hsig.
    unfold Function.df_dx, Function.p, Function.p_default, Function.p_of,
      Function.call_override.
    rewrite Hover, Hsig. split; reflexivity.
  - intros cls over fields x precision Hover Hsig.
    unfold Function.df_dx, Function.p, Function.p_default, Function.p_of,
      Function.call_override.
    now rewrite Hover, Hsig.
Qed.

(** X4.  For an instance that leaves [p] generic, [df_dx] gives back the
    finite difference itself, the two negations cancelling. *)
Lemma df_dx_generic (F : Function) (x : float) (precision : option float) :
  (forall cls fields, F = UserFunction cls fields -> uc_p cls = None) ->
  Function.df_dx m_sin F x precision
  = if Function.deriv_is_abs F
    then Function.df_dx_abs m_sin F x None precision
    else Function.df_dx_rel m_sin F x None precision.
Proof.
  intros Hgen.
  assert (Function.p m_sin F x precision
          = Function.p_ (Function.f m_sin F) (Function.deriv_h F)
              (Function.deriv_eta F) (Function.deriv_is_abs F) x precision)
    as Hp.
  { unfold Function.p, Function.p_of. destruct F; try reflexivity.
    now rewrite (Hgen cls fields eq_refl). }
  unfold Function.df_dx. rewrite Hp. unfold Function.p_.
  unfold Function.df_dx_abs, Function.df_dx_rel.
  destruct (Function.deriv_is_abs F).
  - destruct (Function.df_dx_abs_ _ _ _ _ _) as [d|e]; simpl; [|reflexivity].
    now rewrite float_opp_involutive.
  - destruct (Function.df_dx_rel_ _ _ _ _ _ _) as [d|e]; simpl; [|reflexivity].
    now rewrite float_opp_involutive.
Qed.

(** C9.  A [precision] of zero is false, as an omitted one is: the step
    is left as it was, both finite differences return what they return
    without [precision], and with [h] omitted too the divisors [2*h] and
    [h*h] are those of the class default [DERIV_H], which are not zero,
    so the division returns. *)
Theorem zero_precision_is_no_precision
  (F : Function) (x : float) (h : option float) :
  Function.df_dx_abs m_sin F x h (Some 0)
  = Function.df_dx_abs m_sin F x h None
  /\ Function.d2f_dx2_abs m_sin F x h (Some 0)
     = Function.d2f_dx2_abs m_sin F x h None
  /\ Function.step (Function.deriv_h F) h (Some 0)
     = match h with Some h => h | None => Function.deriv_h F end
  /\ Function.step (Function.deriv_h F) h (Some (-0))
     = Function.step (Function.deriv_h F) h None
  /\ (forall n : float,
         py_div n (2 * Function.step Function.DERIV_H None (Some 0))
         = Ok (n / (2 * Function.DERIV_H)))
  /\ (forall n : float,
         py_div n (Function.step Function.DERIV_H None (Some 0)
                   * Function.step Function.DERIV_H None (Some 0))
         = Ok (n / (Function.DERIV_H * Function.DERIV_H))).
Proof.
  repeat split; reflexivity.
Qed.

(** C8.  For [f(x) = x**2], with the relative step [h = 1 * DERIV_ETA]
    that [p] takes when [DERIV_IS_ABS] is false, [df_dx(1)] and [p(1)]
    return floats within [1e-4] of [2] and of [-2].  The bound is given
    twice: as the comparison in floats, and exactly, on the mantissa [m]
    of the result [m * 2**-52], as [|m - 2**53| * 10**4 < 2**52]. *)
Theorem quadratic_derivative_at_1 :
  Function.deriv_is_abs square = false
  /\ Function.df_dx_rel m_sin square 1 None None
     = Function.df_dx_abs m_sin square 1 (Some (1 * Function.DERIV_ETA)) None
  /\ exists d q m,
      Function.df_dx m_sin square 1 None = Ok d
      /\ Function.p m_sin square 1 None = Ok q
      /\ (abs (d - 2) <? 1e-4) = true
      /\ (abs (q - (-2)) <? 1e-4) = true
      /\ Prim2SF d = S754_finite false m (-52)
      /\ Prim2SF q = S754_finite true m (-52)
      /\ (Z.abs (Zpos m - 2 ^ 53) * 10 ^ 4 < 2 ^ 52)%Z.
Proof.
  split; [reflexivity|]. split; [reflexivity|].
  exists 0x1.ffffffffff25cp+0, (-0x1.ffffffffff25cp+0), 9007199254737500%positive.
  repeat split; vm_compute; reflexivity.
Qed.

End FunctionDerivatives.

(** ** FunctionVector *)

Section VectorFacts.
Variable m_sin : float -> result float.
Variable Kernel : Type.
Variable Kernel_new : Kernel.
Variable Kernel_eq : Kernel -> Kernel -> bool.
Variable DictVector_post_init :
  list (pyval * float) -> result (list (pyval * float)).

Local Abbreviation new := (FunctionVector.new Kernel Kernel_new DictVector_post_init).
Local Abbreviation wrap := (FunctionVector.wrap Kernel Kernel_new DictVector_post_init).
Local Abbreviation _kwargs := (FunctionVector._kwargs Kernel Kernel_eq).
Local Abbreviation combine :=
  (FunctionVector.combine Kernel Kernel_new Kernel_eq DictVector_post_init).
Local Abbreviation kernel_eq := (FunctionVector.kernel_eq Kernel Kernel_eq).

Lemma new_Ok_inv vec0 kernel0 (v : FunctionVector Kernel) :
  new vec0 kernel0 = Ok v ->
  exists v', DictVector_post_init vec0 = Ok v'
             /\ forallb isinstance_Function (map fst v') = true
             /\ v = {| vec := v';
                       kernel := Some (match kernel0 with
                                       | Some k => k
                                       | None => Kernel_new
                                       end) |}.
Proof.
  unfold FunctionVector.new. intros H.
  apply bind_Ok_inv in H as (v' & Hv' & H).
  exists v'. split; [exact Hv'|].
  unfold py_assert in H.
  destruct (forallb isinstance_Function (map fst v')); simpl in H;
    [|discriminate].
  split; [reflexivity|].
  destruct kernel0; now inversion H.
Qed.

Lemma new_invariant vec0 kernel0 (v : FunctionVector Kernel) :
  new vec0 kernel0 = Ok v -> invariant v = true.
Proof.
  intros H. apply new_Ok_inv in H as (v' & _ & Hkeys & ->).
  unfold invariant. simpl. exact Hkeys.
Qed.

(** C10.  A vector that [FunctionVector(vec, kernel=kernel)] returns has a
    kernel, the one given or [Kernel()] when none was, and only Functions
    as keys; a mapping that still holds a key of another type once
    [DictVector.__post_init__] has run is refused by the assertion; [wrap]
    refuses what is no Function, and the vector it returns, built by the
    same constructor with the kernel of [self], satisfies the invariant.
    The other methods return numbers and assign to no field. *)
Theorem vector_invariant :
  (forall vec0 kernel0 v,
      new vec0 kernel0 = Ok v ->
      invariant v = true
      /\ kernel v = Some (match kernel0 with
                          | Some k => k
                          | None => Kernel_new
                          end))
  /\ (forall vec0 kernel0 v',
         DictVector_post_init vec0 = Ok v' ->
         forallb isinstance_Function (map fst v') = false ->
         new vec0 kernel0
         = Raise (AssertionError "all keys must be of type Function"))
  /\ (forall self func v,
         wrap self func = Ok v ->
         invariant v = true
         /\ (invariant self = true -> kernel v = kernel self))
  /\ (forall self func,
         isinstance_Function func = false ->
         wrap self func
         = Raise (AssertionError "func must be of type Function")).
Proof.
  repeat split.
  - eapply new_invariant; eassumption.
  - apply new_Ok_inv in H as (v' & _ & _ & ->). reflexivity.
  - intros vec0 kernel0 v' Hv' Hkeys.
    unfold FunctionVector.new. rewrite Hv'. simpl. now rewrite Hkeys.
  - unfold FunctionVector.wrap in H.
    apply bind_Ok_inv in H as (_ & _ & H).
    eapply new_invariant; eassumption.
  - intros Hself. unfold FunctionVector.wrap in H.
    apply bind_Ok_inv in H as (_ & _ & H).
    apply new_Ok_inv in H as (v' & _ & _ & ->). simpl.
    unfold invariant in Hself.
    destruct (kernel self); [reflexivity|discriminate].
  - intros self func Hfunc. unfold FunctionVector.wrap. now rewrite Hfunc.
Qed.

(** A combination builds its result through the same constructor. *)
Lemma combine_invariant op self other (v : FunctionVector Kernel) :
  combine op self other = Ok v -> invariant v = true.
Proof.
  intros H. unfold FunctionVector.combine in H.
  apply bind_Ok_inv in H as (kw & _ & H).
  eapply new_invariant; eassumption.
Qed.

(** With equal kernels [_kwargs] hands the kernel of [self] on. *)
Lemma kwargs_of_equal_kernels (u v : FunctionVector Kernel) :
  kernel_eq (kernel u) (kernel v) = true ->
  _kwargs u (Some v) = Ok (kernel u) /\ _kwargs u None = Ok (kernel u).
Proof.
  intros Heq. unfold FunctionVector._kwargs. now rewrite Heq.
Qed.

(** C2.  When the kernels of [u] and [v] are not equal, [u._kwargs(v)]
    fails with the assertion error, and with it every combination of [u]
    and [v], which asks [_kwargs] for the kernel of its result: none
    proceeds with one of the two kernels. *)
Theorem unequal_kernels_do_not_combine (u v : FunctionVector Kernel) :
  kernel_eq (kernel u) (kernel v) = false ->
  _kwargs u (Some v) = Raise (AssertionError "kernels must be equal")
  /\ forall op,
      combine op u v = Raise (AssertionError "kernels must be equal").
Proof.
  intros Hneq.
  assert (_kwargs u (Some v) = Raise (AssertionError "kernels must be equal"))
    as Hkw.
  { unfold FunctionVector._kwargs. now rewrite Hneq. }
  split; [exact Hkw|].
  intros op. unfold FunctionVector.combine. now rewrite Hkw.
Qed.

Local Abbreviation f := (FunctionVector.f m_sin Kernel).
Local Abbreviation key_call := (FunctionVector.key_call m_sin).

Lemma terms_of_values (x : float) (entries : list (pyval * float)) :
  forall ys,
    Forall2 (fun kv y => key_call (fst kv) x = Ok y) entries ys ->
    map_r (fun fv => y <- key_call (fst fv) x ;; Ok (y * snd fv)) entries
    = Ok (map (fun cy => fst cy * snd cy) (List.combine (map snd entries) ys)).
Proof.
  induction 1 as [|kv y entries ys Hy _ IH]; simpl; [reflexivity|].
  rewrite Hy. simpl. rewrite IH. simpl. now rewrite float_mul_comm.
Qed.

Lemma sum_of_products (l : list (float * float)) (acc : float) :
  fold_left add (map (fun cy => fst cy * snd cy) l) acc
  = fold_left (fun acc cy => acc + fst cy * snd cy) l acc.
Proof.
  revert acc. induction l as [|cy l IH]; simpl; intros acc; [reflexivity|].
  apply IH.
Qed.

(** C6.  The vector [{F: c}] evaluates at [x] to [0 + F(x) * c], which is
    [c * F(x)] as a number ([==] holds, unless the product is NaN, and then
    both are); it raises what [F(x)] raises.  In general, when the keys
    evaluate to [ys] at [x], [f(x)] is the sum over the entries of
    coefficient times value. *)
Theorem vector_f_is_the_weighted_sum :
  (forall F c x k,
      f {| vec := [(VFunction F, c)]; kernel := k |} x
      = (y <- Function.f m_sin F x ;; Ok (0 + y * c)))
  /\ (forall F c x k y,
         Function.f m_sin F x = Ok y ->
         exists r,
           f {| vec := [(VFunction F, c)]; kernel := k |} x = Ok r
           /\ num_eq r (c * y) = true
           /\ (is_nan (c * y) = false -> (r =? c * y) = true))
  /\ (forall v x ys,
         Forall2 (fun kv y => key_call (fst kv) x = Ok y) (vec v) ys ->
         f v x = Ok (weighted_sum (map snd (vec v)) ys)).
Proof.
  split; [|split].
  - intros F c x k. unfold FunctionVector.f. simpl.
    unfold Function.call. now destruct (Function.f m_sin F x).
  - intros F c x k y Hy. exists (0 + y * c).
    unfold FunctionVector.f. simpl. unfold Function.call. rewrite Hy. simpl.
    split; [reflexivity|].
    rewrite (float_mul_comm y c).
    split; [apply float_add_0_l | apply float_add_0_l_eqb].
  - intros v x ys Hys. unfold FunctionVector.f.
    rewrite (terms_of_values x (vec v) ys Hys). simpl.
    unfold py_sum, weighted_sum. now rewrite sum_of_products.
Qed.

Local Abbreviation goalseek := (FunctionVector.goalseek m_sin Kernel).
Local Abbreviation minimize1 := (FunctionVector.minimize1 m_sin Kernel).

(** X7.  What [goalseek] guarantees of an [x] it returns: the function
    evaluates there and the residual is not above the tolerance. *)
Lemma goalseek_returned (self : FunctionVector Kernel) (target x0 x : float) :
  goalseek self target x0 = Ok x ->
  exists r, f self x = Ok r
            /\ (FunctionVector.GS_TOLERANCE <? abs (r - target)) = false.
Proof.
  unfold FunctionVector.goalseek. intros H.
  apply bind_Ok_inv in H as (x' & _ & H).
  apply bind_Ok_inv in H as (r & Hr & H).
  destruct (FunctionVector.GS_TOLERANCE <? abs (r - target)) eqn:Habove;
    [discriminate|].
  inversion H; subst. eauto.
Qed.

(** X10.  What its sibling [minimize1] guarantees of an [x] it returns:
    the price evaluates there and is below the tolerance in absolute
    value. *)
Lemma minimize1_returned (self : FunctionVector Kernel)
  (x0 : float) learning_rate iterations tolerance (x : float) :
  minimize1 self x0 learning_rate iterations tolerance = Ok x ->
  exists g, FunctionVector.p m_sin Kernel self x = Ok g
            /\ (abs g <? match tolerance with
                         | None => FunctionVector.MM_TOLERANCE
                         | Some t => t
                         end) = true.
Proof.
  unfold FunctionVector.minimize1. intros H.
  apply bind_Ok_inv in H as (x' & _ & H).
  apply bind_Ok_inv in H as (g & Hg & H).
  destruct (abs g <? _) eqn:Hbelow; [|discriminate].
  inversion H; subst. eauto.
Qed.

(** C4.  [goalseek()] of the steep quadratic, with the default target [0]
    and start [1], returns [1.0], where the function is worth exactly
    [GS_TOLERANCE]: the residual does not satisfy [< GS_TOLERANCE].  The
    loop never breaks, since it tests [<]; the check after the loop lets
    the value through, since it tests [>]. *)
Theorem goalseek_returns_at_the_tolerance :
  FunctionVector.goalseek m_sin nat steep_vector 0 1 = Ok 1
  /\ FunctionVector.f m_sin nat steep_vector 1
     = Ok FunctionVector.GS_TOLERANCE
  /\ (abs (FunctionVector.GS_TOLERANCE - 0) <? FunctionVector.GS_TOLERANCE)
     = false
  /\ (FunctionVector.GS_TOLERANCE <? abs (FunctionVector.GS_TOLERANCE - 0))
     = false.
Proof. repeat split; vm_compute; reflexivity. Qed.

End VectorFacts.

(** ** The descent loops *)

Section Loops.
Context {X G : Type}.
Variable grad : X -> result G.
Variable desc : X -> G -> result X.
Variable norm : G -> result float.
Variable tol2 : float.
Variable d : X.

Local Abbreviation body := (descent_body grad desc norm tol2).
Local Abbreviation run :=
  (descent_run (fun x g => grad x = Ok g) (fun x g x' => desc x g = Ok x')
               (fun g n2 => norm g = Ok n2) tol2 d).

Lemma descent_body_Ok x path last s' brk :
  body (x, path, last) = Ok (s', brk) ->
  exists g x' n2,
    grad x = Ok g /\ desc x g = Ok x' /\ norm g = Ok n2
    /\ s' = (x', path ++ [x'], Some (g, n2)) /\ brk = (n2 <? tol2).
Proof.
  unfold descent_body. intros H.
  apply bind_Ok_inv in H as (g & Hg & H).
  apply bind_Ok_inv in H as (x' & Hx' & H).
  apply bind_Ok_inv in H as (n2 & Hn2 & H).
  inversion H; subst. exists g, x', n2. repeat split; assumption.
Qed.

Lemma descent_run_one n x x' g n2 :
  grad x = Ok g -> desc x g = Ok x' -> norm g = Ok n2 ->
  ((n2 <? tol2) = true \/ n = 0%nat) ->
  run (S n) x [x'] g n2.
Proof.
  intros Hg Hx' Hn2 Hstop. split; [simpl; lia|].
  intros i Hi. simpl in Hi. assert (i = 0%nat) as -> by lia.
  exists g, n2. simpl. repeat split; try assumption.
  destruct Hstop as [Hb | ->]; [now left | now right].
Qed.

Lemma descent_run_more n x x' g n2 xs g_last n2_last :
  grad x = Ok g -> desc x g = Ok x' -> norm g = Ok n2 ->
  (n2 <? tol2) = false ->
  run n x' xs g_last n2_last ->
  run (S n) x (x' :: xs) g_last n2_last.
Proof.
  intros Hg Hx' Hn2 Hnot [Hlen Hrun]. split; [simpl; lia|].
  intros [|j] Hi.
  - exists g, n2. simpl. repeat split; try assumption.
    + rewrite Hnot. discriminate.
    + lia.
    + lia.
    + lia.
  - simpl in Hi.
    destruct (Hrun j ltac:(lia)) as (gj & nj & H1 & H2 & H3 & H4 & H5).
    exists gj, nj.
    change (nth (S j) (x :: x' :: xs) d) with (nth j (x' :: xs) d).
    change (nth (S (S j)) (x :: x' :: xs) d) with (nth (S j) (x' :: xs) d).
    repeat split; try assumption.
    + intros Hb. simpl. f_equal. now apply H4.
    + simpl in H. destruct (H5 ltac:(lia)) as ([Hb | Hn] & _ & _);
        [now left | right; simpl; lia].
    + simpl in H. now destruct (H5 ltac:(lia)) as (_ & ? & _).
    + simpl in H. now destruct (H5 ltac:(lia)) as (_ & _ & ?).
Qed.

(** The loop either does not run at all, or is a run as described. *)
Lemma descent_loop n : forall x path last xf path' last',
  for_range n body (x, path, last) = Ok (xf, path', last') ->
  (n = 0%nat /\ path' = path /\ last' = last)
  \/ exists xs g n2,
      path' = path ++ xs /\ last' = Some (g, n2) /\ run n x xs g n2.
Proof.
  induction n as [|n IH]; intros x path last xf path' last' H.
  - left. simpl in H. inversion H; subst. repeat split.
  - right. simpl in H.
    apply bind_Ok_inv in H as ([s' brk] & Hbody & H).
    apply (descent_body_Ok x path last) in Hbody
      as (g & x' & n2 & Hg & Hx' & Hn2 & -> & ->).
    simpl in H. destruct (n2 <? tol2) eqn:Hbelow.
    + injection H as <- <- <-. exists [x'], g, n2.
      split; [reflexivity|]. split; [reflexivity|].
      apply descent_run_one; auto.
    + apply IH in H as [(-> & -> & ->) | (xs & g' & n2' & -> & -> & Hrun)].
      * exists [x'], g, n2. split; [reflexivity|]. split; [reflexivity|].
        apply descent_run_one; auto.
      * exists (x' :: xs), g', n2'.
        split; [now rewrite <- app_assoc|]. split; [reflexivity|].
        eapply descent_run_more; eassumption.
Qed.

End Loops.

Lemma for_range_ext {S} (b1 b2 : S -> result (S * bool)) :
  (forall s, b1 s = b2 s) ->
  forall n s, for_range n b1 s = for_range n b2 s.
Proof.
  intros Hext n. induction n as [|n IH]; intros s; simpl; [reflexivity|].
  rewrite Hext. destruct (b2 s) as [[s' brk]|e]; simpl; [|reflexivity].
  destruct brk; [reflexivity | apply IH].
Qed.

(** The default that [nth] is given plays no part in a run. *)
Lemma descent_run_default {X G} (is_grad : X -> G -> Prop) is_moved is_norm
  tol2 (d d' : X) n x xs g n2 :
  descent_run is_grad is_moved is_norm tol2 d n x xs g n2 ->
  descent_run is_grad is_moved is_norm tol2 d' n x xs g n2.
Proof.
  intros [Hlen Hrun]. split; [exact Hlen|].
  intros i Hi. destruct (Hrun i Hi) as (gi & ni & H).
  exists gi, ni.
  rewrite (nth_indep (x :: xs) d' d) by (simpl; lia).
  rewrite (nth_indep (x :: xs) d' d (n := S i)) by (simpl; lia).
  exact H.
Qed.

(** A run of a loop on lists or on dicts, told by what its three parts
    return, is a run on points, told by what they are. *)
Lemma descent_run_map {X G X' G'} (inX : X -> X') (inG : G -> G')
  (is_grad : X -> G -> Prop) is_moved is_norm
  (is_grad' : X' -> G' -> Prop) is_moved' is_norm'
  tol2 d n x xs g n2 :
  (forall x g, is_grad x g -> is_grad' (inX x) (inG g)) ->
  (forall x g x',
      is_grad x g -> is_moved x g x' -> is_moved' (inX x) (inG g) (inX x')) ->
  (forall g n, is_norm g n -> is_norm' (inG g) n) ->
  descent_run is_grad is_moved is_norm tol2 d n x xs g n2 ->
  descent_run is_grad' is_moved' is_norm' tol2 (inX d) n (inX x)
              (map inX xs) (inG g) n2.
Proof.
  intros Hgrad Hmoved Hnorm [Hlen Hrun].
  split; [now rewrite length_map|].
  intros i Hi. rewrite length_map in Hi.
  destruct (Hrun i Hi) as (gi & ni & H1 & H2 & H3 & H4 & H5).
  exists (inG gi), ni.
  change (inX x :: map inX xs) with (map inX (x :: xs)).
  rewrite !map_nth, length_map.
  repeat split; auto.
  - now destruct (H5 H) as (? & _ & _).
  - f_equal. now destruct (H5 H) as (_ & ? & _).
  - now destruct (H5 H) as (_ & _ & ?).
Qed.

(** ** Lists built by a comprehension *)

Lemma map_r_Forall2 {A B} (g : A -> result B) (l : list A) (ys : list B) :
  map_r g l = Ok ys -> Forall2 (fun a b => g a = Ok b) l ys.
Proof.
  revert ys. induction l as [|a l IH]; simpl; intros ys H.
  - injection H as <-. constructor.
  - apply bind_Ok_inv in H as (b & Hb & H).
    apply bind_Ok_inv in H as (bs & Hbs & H).
    injection H as <-. constructor; auto.
Qed.

Lemma Forall2_of_map {A B C} (h : A -> B) (P : B -> C -> Prop)
  (l : list A) (ys : list C) :
  Forall2 P (map h l) ys -> Forall2 (fun a c => P (h a) c) l ys.
Proof.
  revert ys. induction l as [|a l IH]; simpl; intros ys H;
    inversion H; subst; constructor; auto.
Qed.

Lemma Forall2_seq_nth {B} (P : nat -> B -> Prop) (d : B) (n : nat) :
  forall (start : nat) (ys : list B),
    Forall2 P (seq start n) ys ->
    List.length ys = n
    /\ forall i, (i < n)%nat -> P (start + i)%nat (nth i ys d).
Proof.
  induction n as [|n IH]; simpl; intros start ys H; inversion H; subst.
  - split; [reflexivity|]. intros i Hi. lia.
  - destruct (IH _ _ H4) as [Hlen Hnth]. split; [simpl; now rewrite Hlen|].
    intros [|i] Hi; simpl.
    + now rewrite Nat.add_0_r.
    + rewrite Nat.add_succ_r. apply Hnth. lia.
Qed.

Lemma nth_map_in {A B} (g : A -> B) (l : list A) (j : nat) (dB : B) (dA : A) :
  (j < List.length l)%nat -> nth j (map g l) dB = g (nth j l dA).
Proof.
  revert j. induction l as [|a l IH]; simpl; intros [|j] Hj; try lia;
    [reflexivity | apply IH; lia].
Qed.

(** ** The parts of a pass, as the two loops compute them *)

(** [x + deriv_h * e_i(i, n)], entry by entry. *)
Lemma x_plus_h_e_i (x : list float) (i : nat) (h : float) :
  FunctionVector.vadd x
    (FunctionVector.vscale h (FunctionVector.e_i i (List.length x)))
  = shifted x i h.
Proof.
  unfold FunctionVector.vadd, FunctionVector.vscale, FunctionVector.e_i,
    shifted.
  apply (nth_ext _ _ 0 0).
  - now rewrite !length_map, length_combine, !length_map, length_seq,
      Nat.min_id.
  - intros j Hj.
    rewrite length_map, length_combine, !length_map, length_seq, Nat.min_id
      in Hj.
    rewrite (nth_map_in _ _ _ _ (0, 0))
      by now rewrite length_combine, !length_map, length_seq, Nat.min_id.
    rewrite combine_nth by now rewrite !length_map, length_seq.
    cbn [fst snd].
    rewrite (nth_map_in _ _ _ _ 0) by now rewrite length_map, length_seq.
    rewrite (nth_map_in _ _ _ _ 0%nat) by now rewrite length_seq.
    rewrite (nth_map_in _ _ _ _ 0%nat) by now rewrite length_seq.
    now rewrite seq_nth by exact Hj.
Qed.

(** [x - learning_rate * dfdx], entry by entry. *)
Lemma x_minus_rate_dfdx (x g : list float) (learning_rate : float) :
  List.length g = List.length x ->
  moves learning_rate (PList x) (PList g)
    (PList (FunctionVector.vsub x (FunctionVector.vscale learning_rate g))).
Proof.
  intros Hlen. unfold FunctionVector.vsub, FunctionVector.vscale. split.
  - now rewrite length_map, length_combine, length_map, Hlen, Nat.min_id.
  - intros j Hj.
    rewrite (nth_map_in _ _ _ _ (0, 0))
      by now rewrite length_combine, length_map, Hlen, Nat.min_id.
    rewrite combine_nth by now rewrite length_map, Hlen.
    cbn [fst snd].
    now rewrite (nth_map_in _ _ _ _ 0) by now rewrite Hlen.
Qed.

Lemma forward_difference_of_calls {X} (call : X -> result float) h x x'
  (f0 g : float) :
  call x = Ok f0 ->
  (fi <- call x' ;; py_div (fi - f0) h) = Ok g ->
  forward_difference call h x x' g.
Proof.
  intros Hf0 H. apply bind_Ok_inv in H as (fi & Hfi & H).
  unfold py_div in H. destruct (h =? 0); [discriminate|].
  injection H as <-. exists f0, fi. auto.
Qed.

Section MinimizeFacts.
Variable float_pow2 : float -> result float.
Variable np_dot : list float -> list float -> float.
Variable func : callable.
Variables learning_rate tol_squared deriv_h : float.

Lemma gradient_lst_is_gradient (x g : list float) :
  FunctionVector.gradient_lst func deriv_h x = Ok g ->
  is_gradient func deriv_h (PList x) (PList g).
Proof.
  unfold FunctionVector.gradient_lst. intros H.
  apply bind_Ok_inv in H as (f0 & Hf0 & H).
  apply map_r_Forall2 in H.
  apply (Forall2_seq_nth _ 0) in H as [Hlen Hnth].
  split; [exact Hlen|]. intros i Hi.
  specialize (Hnth i Hi). cbn [Nat.add] in Hnth.
  rewrite x_plus_h_e_i in Hnth.
  exact (forward_difference_of_calls _ _ _ _ _ _ Hf0 Hnth).
Qed.

Lemma gradient_dct_is_gradient (x g : list (string * float)) :
  FunctionVector.gradient_dct func deriv_h x = Ok g ->
  is_gradient func deriv_h (PDict x) (PDict g).
Proof.
  unfold FunctionVector.gradient_dct. intros H.
  apply bind_Ok_inv in H as (f0 & Hf0 & H).
  apply map_r_Forall2, Forall2_of_map in H.
  simpl. revert H. apply Forall2_impl. intros xk gk H.
  apply bind_Ok_inv in H as (fk & Hfk & H).
  apply bind_Ok_inv in H as (q & Hq & H). injection H as <-.
  split; [reflexivity|]. cbn [snd].
  apply (forward_difference_of_calls _ _ _ _ f0); [exact Hf0|].
  now rewrite Hfk.
Qed.

Lemma descend_dct_moves (x g x' : list (string * float)) :
  FunctionVector.descend_dct learning_rate x g = Ok x' ->
  moves learning_rate (PDict x) (PDict g) (PDict x').
Proof.
  unfold FunctionVector.descend_dct. intros H.
  apply map_r_Forall2, Forall2_of_map in H.
  simpl. revert H. apply Forall2_impl. intros xk xk' H.
  destruct (Function.dict_get x (fst xk)) as [v|]; [|discriminate].
  destruct (Function.dict_get g (fst xk)) as [gk|]; [|discriminate].
  injection H as <-. split; [reflexivity|]. exists v, gk. auto.
Qed.

Lemma sum_of_squares_is_norm2 (g : list (string * float)) (n2 : float) :
  (squares <- map_r float_pow2 (map snd g) ;; Ok (py_sum squares)) = Ok n2 ->
  is_norm2 float_pow2 np_dot (PDict g) n2.
Proof.
  intros H. apply bind_Ok_inv in H as (squares & Hsq & H).
  injection H as <-. exists squares. split; [|reflexivity].
  now apply map_r_Forall2, Forall2_of_map in Hsq.
Qed.

Lemma body_lst_is_descent s :
  FunctionVector.body_lst np_dot func learning_rate tol_squared deriv_h s
  = descent_body (FunctionVector.gradient_lst func deriv_h)
      (fun x g => Ok (FunctionVector.vsub x
                        (FunctionVector.vscale learning_rate g)))
      (fun g => Ok (np_dot g g)) tol_squared s.
Proof.
  destruct s as [[x path] last]. unfold FunctionVector.body_lst, descent_body.
  now destruct (FunctionVector.gradient_lst func deriv_h x).
Qed.

Lemma body_dct_is_descent s :
  FunctionVector.body_dct float_pow2 func learning_rate tol_squared deriv_h s
  = descent_body (FunctionVector.gradient_dct func deriv_h)
      (FunctionVector.descend_dct learning_rate)
      (fun g => squares <- map_r float_pow2 (map snd g) ;;
                Ok (py_sum squares))
      tol_squared s.
Proof.
  destruct s as [[x path] last]. unfold FunctionVector.body_dct, descent_body.
  destruct (FunctionVector.gradient_dct func deriv_h x) as [g|e];
    simpl; [|reflexivity].
  destruct (FunctionVector.descend_dct learning_rate x g) as [x'|e];
    simpl; [|reflexivity].
  now destruct (map_r float_pow2 (map snd g)).
Qed.

Local Abbreviation run :=
  (descent_run (is_gradient func deriv_h) (moves learning_rate)
               (is_norm2 float_pow2 np_dot) tol_squared (PList [])).

Lemma minimize_lst_run x0 iterations path dfdx norm2_dfdx :
  FunctionVector._minimize_lst np_dot func learning_rate tol_squared deriv_h
    x0 iterations = Ok (path, dfdx, norm2_dfdx) ->
  exists xs,
    path = x0 :: xs
    /\ run (FunctionVector.range_len iterations) (PList x0) (map PList xs)
           (PList dfdx) norm2_dfdx.
Proof.
  unfold FunctionVector._minimize_lst. intros H.
  apply bind_Ok_inv in H as ([[xf path'] last] & Hloop & H).
  rewrite (for_range_ext _ _ body_lst_is_descent) in Hloop.
  apply (descent_loop _ _ _ _ []) in Hloop
    as [(_ & _ & ->) | (xs & g & n2 & -> & -> & Hrun)]; [discriminate|].
  injection H as <- <- <-. exists xs. split; [reflexivity|].
  revert Hrun. apply (descent_run_map PList PList).
  - intros x gx. apply gradient_lst_is_gradient.
  - intros x gx x' Hg Hx'. injection Hx' as <-.
    apply x_minus_rate_dfdx.
    now destruct (gradient_lst_is_gradient x gx Hg).
  - intros gx n Hn. now injection Hn as <-.
Qed.

Lemma minimize_dct_run x0 iterations path dfdx norm2_dfdx :
  FunctionVector._minimize_dct float_pow2 func learning_rate tol_squared
    deriv_h x0 iterations = Ok (path, dfdx, norm2_dfdx) ->
  exists xs,
    path = x0 :: xs
    /\ run (FunctionVector.range_len iterations) (PDict x0) (map PDict xs)
           (PDict dfdx) norm2_dfdx.
Proof.
  unfold FunctionVector._minimize_dct. intros H.
  apply bind_Ok_inv in H as ([[xf path'] last] & Hloop & H).
  rewrite (for_range_ext _ _ body_dct_is_descent) in Hloop.
  apply (descent_loop _ _ _ _ []) in Hloop
    as [(_ & _ & ->) | (xs & g & n2 & -> & -> & Hrun)]; [discriminate|].
  injection H as <- <- <-. exists xs. split; [reflexivity|].
  apply (descent_run_default _ _ _ _ (PDict [])).
  revert Hrun. apply (descent_run_map PDict PDict).
  - intros x gx. apply gradient_dct_is_gradient.
  - intros x gx x' _. apply descend_dct_moves.
  - intros gx n. apply sum_of_squares_is_norm2.
Qed.

End MinimizeFacts.

Lemma py_pow2_Ok (x r : float) : py_pow2 x = Ok r -> r = x * x.
Proof.
  unfold py_pow2.
  destruct (is_infinity (x * x) && negb (is_infinity x)); [discriminate|].
  now injection 1.
Qed.


(** ** The statements at the sample inputs *)

(** The bound on the derivative of the square does not hang on the last
    bit of [x**2]: it holds under every rounding of the two squares the
    difference takes. *)
Lemma quadratic_derivative_any_power :
  forallb (fun lo =>
    forallb (fun hi =>
      match Function.df_dx sample_sin (square_with lo hi) 1 None,
            Function.p sample_sin (square_with lo hi) 1 None with
      | Ok d, Ok q => (abs (d - 2) <? 1e-4) && (abs (q - (-2)) <? 1e-4)
      | _, _ => false
      end) roundings) roundings = true.
Proof. vm_compute. reflexivity. Qed.

(** A step passed as zero divides by zero, with a zero [precision] as
    without one; with the step omitted the same calls return. *)
Lemma explicit_zero_step :
  Function.df_dx_abs sample_sin square 1 (Some 0) None
  = Raise ZeroDivisionError
  /\ Function.df_dx_abs sample_sin square 1 (Some 0) (Some 0)
     = Raise ZeroDivisionError
  /\ (exists d, Function.df_dx_abs sample_sin square 1 None (Some 0) = Ok d
                /\ (abs (d - 2) <? 1e-4) = true)
  /\ (exists d, Function.d2f_dx2_abs sample_sin square 1 None (Some 0) = Ok d
                /\ (abs (d - 2) <? 1e-3) = true).
Proof.
  split; [reflexivity|]. split; [reflexivity|].
  split; eexists; (split; [vm_compute; reflexivity|]); vm_compute; reflexivity.
Qed.

(** Two sample vectors over the kernels [0] and [1] do not combine. *)
Lemma unequal_kernels_witness :
  FunctionVector.kernel_eq nat Nat.eqb (kernel two_vector)
    (kernel other_vector) = false
  /\ FunctionVector._kwargs nat Nat.eqb two_vector (Some other_vector)
     = Raise (AssertionError "kernels must be equal")
  /\ FunctionVector.combine nat 0%nat Nat.eqb sample_post_init sample_op
       two_vector other_vector
     = Raise (AssertionError "kernels must be equal").
Proof.
  split; [reflexivity|].
  destruct (unequal_kernels_do_not_combine nat 0%nat Nat.eqb
              sample_post_init two_vector other_vector eq_refl)
    as [Hkw Hop].
  split; [exact Hkw | exact (Hop sample_op)].
Defined.

(** [two_vector] at [2], from the values of its two keys there. *)
Lemma vector_f_witness :
  Forall2 (fun kv y => FunctionVector.key_call sample_sin (fst kv) 2 = Ok y)
          (vec two_vector) two_values
  /\ FunctionVector.f sample_sin nat two_vector 2
     = Ok (weighted_sum [3; 0.5] two_values).
Proof.
  assert (Forall2
            (fun kv y => FunctionVector.key_call sample_sin (fst kv) 2 = Ok y)
            (vec two_vector) two_values) as Hys.
  { repeat constructor. }
  split; [exact Hys|].
  destruct (vector_f_is_the_weighted_sum sample_sin nat) as (_ & _ & Hsum).
  exact (Hsum two_vector 2 two_values Hys).
Defined.

(** A vector built without a kernel gets [Kernel()]; a mapping with a
    string among its keys is refused; [wrap] keeps the kernel of [self]. *)
Lemma vector_invariant_witness :
  (exists v,
      FunctionVector.new nat 0%nat sample_post_init (vec two_vector) None
      = Ok v
      /\ invariant v = true /\ kernel v = Some 0%nat)
  /\ FunctionVector.new nat 0%nat sample_post_init bad_mapping (Some 1%nat)
     = Raise (AssertionError "all keys must be of type Function")
  /\ (exists v,
         FunctionVector.wrap nat 0%nat sample_post_init other_vector
           (VFunction steep) = Ok v
         /\ invariant v = true /\ kernel v = Some 1%nat).
Proof.
  destruct (vector_invariant nat 0%nat sample_post_init)
    as (Hnew & Hbad & Hwrap & _).
  split; [|split].
  - eexists. split; [reflexivity|].
    exact (Hnew (vec two_vector) None _ eq_refl).
  - exact (Hbad bad_mapping (Some 1%nat) bad_mapping eq_refl eq_refl).
  - eexists. split; [reflexivity|].
    destruct (Hwrap other_vector (VFunction steep) _ eq_refl) as [Hinv Hk].
    split; [exact Hinv | exact (Hk eq_refl)].
Defined.


(** The same descent on a dict. *)
Lemma minimize_dict_descent :
  FunctionVector.minimize sample_pow2 sample_dot bowl
    (XDict [("x", 0); ("y", 0)]) (Some 0.5) (Some 5%Z) None (Some 0.5) true
  = Ok (Path [PDict [("x", 0); ("y", 0)];
              PDict [("x", 2.75); ("y", -2.25)];
              PDict [("x", 2.75); ("y", -2.25)]]
             (PDict [("x", 0); ("y", 0)])).
Proof. vm_compute. reflexivity. Qed.

(** The descent of the bowl from the origin under the defaults: three
    passes do not reach the tolerance, the default budget does, well before
    it is spent. *)
Lemma bowl_descents :
  FunctionVector.minimize sample_pow2 sample_dot bowl (XList [0; 0]) None
    (Some 3%Z) None None false
  = Raise FunctionVector.convergence_failure
  /\ (exists x y,
         FunctionVector.minimize sample_pow2 sample_dot bowl (XList [0; 0])
           None None None None false
         = Ok (Final (PList [x; y]))
         /\ (abs (x - 3) <? 1e-3) = true /\ (abs (y + 2) <? 1e-3) = true)
  /\ (exists path dfdx,
         FunctionVector.minimize sample_pow2 sample_dot bowl (XList [0; 0])
           None None None None true
         = Ok (Path path dfdx)
         /\ (List.length path < 100)%nat)
  /\ FunctionVector.minimize sample_pow2 sample_dot bowl (XList [0; 0]) None
       (Some (-1)%Z) None None false
     = Raise (UnboundLocalError "dfdx").
Proof.
  split; [vm_compute; reflexivity|].
  split; [do 2 eexists; split; [vm_compute; reflexivity|];
          split; vm_compute; reflexivity|].
  split; [|vm_compute; reflexivity].
  do 2 eexists. split; [vm_compute; reflexivity|].
  apply Nat.ltb_lt. vm_compute. reflexivity.
Qed.

(** ** Function: what [update] rebuilds *)

Lemma dict_get_In {V} (d : list (string * V)) (k : string) :
  In k (map fst d) -> Function.dict_get d k <> None.
Proof.
  induction d as [|[k' v] d IH]; simpl; [tauto|].
  intros [-> | Hin].
  - now rewrite String.eqb_refl.
  - destruct (String.eqb k' k); [discriminate | auto].
Qed.

Lemma dict_get_not_In {V} (d : list (string * V)) (k : string) :
  Function.dict_get d k <> None -> In k (map fst d).
Proof.
  induction d as [|[k' v] d IH]; simpl; [congruence|].
  destruct (String.eqb k' k) eqn:E.
  - apply String.eqb_eq in E. auto.
  - auto.
Qed.

Lemma dict_get_NoDup {V} (d : list (string * V)) (k : string) (v : V) :
  NoDup (map fst d) -> In (k, v) d -> Function.dict_get d k = Some v.
Proof.
  induction d as [|[k' v'] d IH]; simpl; [tauto|].
  intros Hnd [Heq | Hin].
  - injection Heq as -> ->. now rewrite String.eqb_refl.
  - inversion Hnd as [|? ? Hk' Hnd']; subst.
    destruct (String.eqb k' k) eqn:E.
    + apply String.eqb_eq in E. subst. exfalso. apply Hk'.
      change k with (fst (k, v)). now apply in_map.
    + auto.
Qed.

Lemma dict_set_keys {V} (d : list (string * V)) (k : string) (v : V) :
  In k (map fst d) -> map fst (Function.dict_set d k v) = map fst d.
Proof.
  induction d as [|[k' v'] d IH]; simpl; [tauto|].
  intros Hin. destruct (String.eqb k' k) eqn:E; simpl; [reflexivity|].
  f_equal. apply IH. destruct Hin as [-> | Hin]; [|exact Hin].
  now rewrite String.eqb_refl in E.
Qed.

Lemma dict_set_In_key {V} (d : list (string * V)) (k : string) (v : V) :
  In k (map fst (Function.dict_set d k v)).
Proof.
  induction d as [|[k' v'] d IH]; simpl; [auto|].
  destruct (String.eqb k' k) eqn:E; simpl.
  - apply String.eqb_eq in E. auto.
  - auto.
Qed.

Lemma dict_set_keeps_keys {V} (d : list (string * V)) (k k0 : string) (v : V) :
  In k0 (map fst d) -> In k0 (map fst (Function.dict_set d k v)).
Proof.
  induction d as [|[k' v'] d IH]; simpl; [tauto|].
  intros Hin. destruct (String.eqb k' k); simpl; tauto.
Qed.

Lemma dict_set_Forall {V} (P : V -> Prop) (d : list (string * V)) k v :
  Forall (fun kv => P (snd kv)) d -> P v ->
  Forall (fun kv => P (snd kv)) (Function.dict_set d k v).
Proof.
  intros Hd Hv. induction Hd as [|[k' v'] d Hkv Hd IH]; simpl.
  - constructor; [exact Hv | constructor].
  - destruct (String.eqb k' k); constructor; auto.
Qed.

Lemma dict_merge_keys {V} (e d : list (string * V)) :
  (forall k, In k (map fst e) -> In k (map fst d)) ->
  map fst (Function.dict_merge d e) = map fst d.
Proof.
  unfold Function.dict_merge. revert d.
  induction e as [|[k v] e IH]; simpl; intros d Hin; [reflexivity|].
  rewrite IH.
  - apply dict_set_keys. auto.
  - intros k0 Hk0. rewrite dict_set_keys by auto. auto.
Qed.

Lemma dict_merge_In_key {V} (e d : list (string * V)) (k : string) :
  In k (map fst e) -> In k (map fst (Function.dict_merge d e)).
Proof.
  unfold Function.dict_merge. revert d.
  induction e as [|[k' v] e IH]; simpl; intros d; [tauto|].
  intros [-> | Hin]; [|now apply IH].
  clear IH. generalize (dict_set_In_key d k v).
  generalize (Function.dict_set d k v). clear d.
  induction e as [|[k' v'] e IH]; simpl; intros d Hd; [exact Hd|].
  apply IH. now apply dict_set_keeps_keys.
Qed.

Lemma dict_merge_Forall {V} (P : V -> Prop) (e d : list (string * V)) :
  Forall (fun kv => P (snd kv)) d -> Forall (fun kv => P (snd kv)) e ->
  Forall (fun kv => P (snd kv)) (Function.dict_merge d e).
Proof.
  unfold Function.dict_merge. intros Hd He. revert d Hd.
  induction He as [|[k v] e Hkv He IH]; simpl; intros d Hd; [exact Hd|].
  apply IH. now apply dict_set_Forall.
Qed.

Lemma unexpected_false c (d : list (string * pyval)) :
  (forall k, In k (map fst d) -> In k (map fst (Function.declared c))) ->
  Function.unexpected c d = false.
Proof.
  intros Hin. unfold Function.unexpected.
  destruct (existsb _ d) eqn:E; [|reflexivity].
  apply existsb_exists in E as ([k v] & Hkv & Hk). simpl in Hk.
  destruct (Function.dict_get (Function.declared c) k) eqn:Hget;
    [discriminate|].
  exfalso. apply (dict_get_In (Function.declared c) k); [|exact Hget].
  apply Hin. change k with (fst (k, v)). now apply in_map.
Qed.

Lemma bind_fields_Ok (d : list (string * pyval)) :
  NoDup (map fst d) ->
  forall (d' : list (string * pyval)) (decl : list (string * option pyval)),
    map fst decl = map fst d' -> incl d' d ->
    map_r (Function.bind_field d) decl = Ok (map snd d').
Proof.
  intros Hnd d'. induction d' as [|[k v] d' IH]; intros decl Hkeys Hincl.
  - destruct decl; [reflexivity | discriminate].
  - destruct decl as [|[k0 dflt] decl]; [discriminate|].
    simpl in Hkeys. injection Hkeys as -> Hkeys. simpl.
    unfold Function.bind_field at 1. simpl.
    rewrite (dict_get_NoDup d k v Hnd) by (apply Hincl; now left).
    simpl. rewrite (IH decl Hkeys); [reflexivity|].
    intros kv Hkv. apply Hincl. now right.
Qed.

Lemma numeric_values (vs : list pyval) :
  Forall (fun v => exists x, v = VFloat x) vs ->
  exists xs, vs = map VFloat xs /\ map_r Function.numeric vs = Ok xs.
Proof.
  induction 1 as [|v vs [x ->] _ (xs & -> & IH)].
  - exists []. split; reflexivity.
  - exists (x :: xs). split; [reflexivity|]. simpl. now rewrite IH.
Qed.

Lemma fields_of_values (d : list (string * pyval)) (xs : list float) :
  map snd d = map VFloat xs ->
  map (fun kv => (fst kv, VFloat (snd kv))) (combine (map fst d) xs) = d
  /\ map fst (combine (map fst d) xs) = map fst d.
Proof.
  revert xs. induction d as [|[k v] d IH]; intros [|x xs] H;
    try discriminate; simpl; [split; reflexivity|].
  simpl in H. injection H as -> H.
  destruct (IH xs H) as [IH1 IH2]. now rewrite IH1, IH2.
Qed.

Lemma NoDup_abc (a b c : string) :
  a <> b -> a <> c -> b <> c -> NoDup [a; b; c].
Proof.
  intros Hab Hac Hbc. repeat constructor; simpl; intuition congruence.
Qed.

(** The fields of an instance, as [params] lists them, are those its class
    declares, each once; and they are numbers unless the class wraps. *)
Lemma params_shape (F : Function) :
  has_declared_fields F ->
  map fst (Function.params F)
  = map fst (Function.declared (Function.class_of F))
  /\ NoDup (map fst (Function.params F))
  /\ (numeric_class F = true ->
      Forall (fun kv => exists x, snd kv = VFloat x) (Function.params F)).
Proof.
  destruct F as [a b c|amp omega phase|k x0 y0|w pr|w pr|cls fields];
    simpl; intros Hdecl.
  1-3: split; [reflexivity|]; split;
       [apply NoDup_abc; discriminate
       | intros _; repeat (apply Forall_cons; [simpl; eauto|]);
         apply Forall_nil].
  1-2: split; [reflexivity|]; split;
       [repeat constructor; simpl; intuition discriminate | discriminate].
  destruct Hdecl as [Hkeys Hnd]. rewrite !map_map. simpl.
  split; [exact Hkeys|]. split; [exact Hnd|].
  intros _. apply Forall_forall. intros kv Hkv.
  apply in_map_iff in Hkv as ([k x] & <- & _). simpl. eauto.
Qed.

Ltac three_fields d Hkeys Hnum :=
  destruct d as [|[? ?] [|[? ?] [|[? ?] [|? ?]]]]; try discriminate Hkeys;
  simpl in Hkeys; injection Hkeys as -> -> ->;
  repeat match goal with
         | H : Forall _ (_ :: _) |- _ =>
             let x := fresh "x" in
             let Hx := fresh "Hx" in
             let Ht := fresh "Ht" in
             apply Forall_cons_iff in H as [[x Hx] Ht];
             simpl in Hx; subst
         end.

(** The call of a class whose fields are numbers, on a dict that names
    each declared field once and gives it a number, returns the instance
    whose fields are that dict. *)
Lemma new_rebuilds (c : Function.class) (d : list (string * pyval)) :
  c <> Function.CPriceFunction -> c <> Function.CPrice2Function ->
  map fst d = map fst (Function.declared c) ->
  NoDup (map fst d) ->
  Forall (fun kv => exists x, snd kv = VFloat x) d ->
  exists F, Function.new c d = Ok F
            /\ Function.class_of F = c
            /\ Function.params F = d
            /\ numeric_class F = true.
Proof.
  intros Hp Hp2 Hkeys Hnd Hnum.
  destruct c as [| | | | |cls]; try congruence.
  - three_fields d Hkeys Hnum.
    eexists. repeat split; reflexivity.
  - three_fields d Hkeys Hnum.
    eexists. repeat split; reflexivity.
  - three_fields d Hkeys Hnum.
    eexists. repeat split; reflexivity.
  - unfold Function.new, Function.bind_args.
    rewrite unexpected_false
      by (intros k Hk; now rewrite <- Hkeys).
    rewrite (bind_fields_Ok d Hnd d (Function.declared (Function.CUserFunction cls)))
      by (auto using incl_refl).
    simpl.
    destruct (numeric_values (map snd d)) as (xs & Hxs & Hmap).
    { apply Forall_forall. intros v Hv.
      apply in_map_iff in Hv as (kv & <- & Hkv).
      exact (proj1 (Forall_forall _ _) Hnum kv Hkv). }
    rewrite Hmap. simpl. eexists. split; [reflexivity|].
    split; [reflexivity|].
    assert (map fst (uc_fields cls) = map fst d) as ->.
    { rewrite Hkeys. simpl. now rewrite map_map. }
    split; [apply (fields_of_values d xs Hxs) | reflexivity].
Qed.

(** An instance of a class whose fields are numbers is known by its class
    and its fields. *)
Lemma params_inj (F F' : Function) :
  numeric_class F = true -> numeric_class F' = true ->
  Function.class_of F = Function.class_of F' ->
  Function.params F = Function.params F' ->
  F = F'.
Proof.
  destruct F, F'; simpl; try discriminate; intros _ _ Hc Hp.
  1-3: now injection Hp as -> -> ->.
  injection Hc as ->. f_equal.
  revert fields0 Hp. induction fields as [|[k x] fields IH];
    intros [|[k' x'] fields'] Hp; try discriminate; [reflexivity|].
  simpl in Hp. injection Hp as -> -> Hp. f_equal. now apply IH.
Qed.

Lemma update_rebuilds (F : Function) (kwargs : list (string * pyval)) :
  numeric_class F = true ->
  has_declared_fields F ->
  (forall k, In k (map fst kwargs) ->
             In k (map fst (Function.declared (Function.class_of F)))) ->
  Forall (fun kv => exists x, snd kv = VFloat x) kwargs ->
  exists F', Function.update F kwargs = Ok F'
             /\ Function.class_of F' = Function.class_of F
             /\ Function.params F'
                = Function.dict_merge (Function.params F) kwargs
             /\ numeric_class F' = true.
Proof.
  intros Hnum Hdecl Hnames Hvals.
  destruct (params_shape F Hdecl) as (Hkeys & Hnd & Hfloats).
  assert (map fst (Function.dict_merge (Function.params F) kwargs)
          = map fst (Function.params F)) as Hmerged.
  { apply dict_merge_keys. intros k Hk. rewrite Hkeys. auto. }
  unfold Function.update. cbv zeta.
  apply new_rebuilds.
  - destruct F; simpl; discriminate.
  - destruct F; simpl; discriminate.
  - now rewrite Hmerged.
  - now rewrite Hmerged.
  - apply (dict_merge_Forall (fun v => exists x, v = VFloat x)); auto.
Qed.

(** X1.  [update] on a class whose fields are numbers.  With keyword
    arguments that name declared fields and give numbers, [update] returns
    an instance of the same class whose fields are [{**params, **kwargs}]:
    the named fields take the new values, in place, and every other field
    keeps its own. *)
Theorem update_overrides_the_named_fields
  (F : Function) (kwargs : list (string * pyval)) :
  numeric_class F = true ->
  has_declared_fields F ->
  (forall k, In k (map fst kwargs) ->
             In k (map fst (Function.declared (Function.class_of F)))) ->
  Forall (fun kv => exists x, snd kv = VFloat x) kwargs ->
  exists F', Function.update F kwargs = Ok F'
             /\ Function.class_of F' = Function.class_of F
             /\ Function.params F'
                = Function.dict_merge (Function.params F) kwargs.
Proof.
  intros Hnum Hdecl Hnames Hvals.
  destruct (update_rebuilds F kwargs Hnum Hdecl Hnames Hvals)
    as (F' & H1 & H2 & H3 & _).
  exists F'. auto.
Qed.

(** X2.  [update()] with no keyword argument returns an instance equal to
    [self], for every class whose fields are numbers, user classes
    included. *)
Theorem update_without_arguments_is_identity (F : Function) :
  numeric_class F = true ->
  has_declared_fields F ->
  Function.update F [] = Ok F.
Proof.
  intros Hnum Hdecl.
  destruct (update_rebuilds F [] Hnum Hdecl) as (F' & -> & Hc & Hp & Hn).
  - intros k [].
  - constructor.
  - f_equal. symmetry. now apply params_inj.
Qed.

Lemma update_unexpected_keyword
  (F : Function) (kwargs : list (string * pyval)) (k : string) :
  In k (map fst kwargs) ->
  Function.dict_get (Function.declared (Function.class_of F)) k = None ->
  Function.update F kwargs
  = Raise (TypeError "got an unexpected keyword argument").
Proof.
  intros Hk Hnone.
  assert (Function.unexpected (Function.class_of F)
            (Function.dict_merge (Function.params F) kwargs) = true) as Hun.
  { unfold Function.unexpected. apply existsb_exists.
    pose proof (dict_merge_In_key kwargs (Function.params F) k Hk) as Hin.
    apply in_map_iff in Hin as ([k' v] & Hfst & Hin). simpl in Hfst. subst.
    exists (k, v). split; [exact Hin|]. simpl. now rewrite Hnone. }
  unfold Function.update, Function.new, Function.bind_args. cbv zeta.
  now rewrite Hun.
Qed.

(** ** More facts about binary64 arithmetic *)

Lemma SFcompare_Lt_asym (x y : spec_float) :
  SFcompare x y = Some Lt -> SFcompare y x = Some Gt.
Proof.
  destruct x as [sx|sx| |sx mx ex], y as [sy|sy| |sy my ey]; simpl;
    try discriminate;
    try (destruct sx; discriminate || reflexivity);
    try (destruct sy; discriminate || reflexivity);
    try (destruct sx, sy; discriminate || reflexivity).
  destruct sx, sy; try discriminate; try reflexivity;
    rewrite (Z.compare_antisym ex ey);
    change (Pos.compare_cont Eq my mx) with (Pos.compare my mx);
    change (Pos.compare_cont Eq mx my) with (Pos.compare mx my);
    rewrite (Pos.compare_antisym mx my);
    destruct (ex ?= ey)%Z; simpl; try discriminate; try reflexivity;
    destruct (mx ?= my)%positive; simpl; try discriminate; reflexivity.
Qed.

(** [a < b] excludes [b < a]. *)
Lemma float_ltb_asym (a b : float) : (a <? b) = true -> (b <? a) = false.
Proof.
  rewrite !ltb_spec. unfold SFltb.
  destruct (SFcompare (Prim2SF a) (Prim2SF b)) as [[| |]|] eqn:E;
    try discriminate.
  intros _. now rewrite (SFcompare_Lt_asym _ _ E).
Qed.

(** No absolute value is below zero. *)
Lemma float_abs_not_below_0 (g : float) : (abs g <? 0) = false.
Proof.
  rewrite ltb_spec, abs_spec. change (Prim2SF 0) with (S754_zero false).
  now destruct (Prim2SF g) as [s|s| |s m e].
Qed.

(** A finite number minus itself is zero. *)
Lemma float_sub_diag (x : float) :
  is_nan x = false -> is_infinity x = false -> (x - x =? 0) = true.
Proof.
  unfold is_nan, is_infinity.
  rewrite !eqb_spec, sub_spec, abs_spec.
  change (Prim2SF 0) with (S754_zero false).
  change (Prim2SF infinity) with (S754_infinity false).
  unfold SF64sub, SFsub.
  destruct (Prim2SF x) as [s|s| |s m e]; simpl; try discriminate.
  - now destruct s.
  - intros _ _. now rewrite Z.sub_diag.
Qed.

(** ** Loops that break *)

Lemma for_range_raises {S} (body : S -> result (S * bool)) n s e :
  body s = Raise e -> for_range (Datatypes.S n) body s = Raise e.
Proof. intros H. simpl. now rewrite H. Qed.

Lemma for_range_hits {S} (body : S -> result (S * bool)) k s s' :
  hits body k s s' ->
  forall n, (k <= n)%nat -> for_range n body s = Ok s'.
Proof.
  induction 1 as [x x' Hb | k x x' x'' Hb _ IH]; intros [|n] Hn;
    try lia; simpl; rewrite Hb; simpl; [reflexivity|].
  apply IH. lia.
Qed.

Lemma hits_last {S} (body : S -> result (S * bool)) k s s' :
  hits body k s s' -> exists s0, body s0 = Ok (s', true).
Proof. induction 1; eauto. Qed.

(** ** FunctionVector: goal seek and one-dimensional descent *)

Section SeekFacts.
Variable m_sin : float -> result float.
Variable Kernel : Type.

Local Abbreviation f := (FunctionVector.f m_sin Kernel).
Local Abbreviation goalseek := (FunctionVector.goalseek m_sin Kernel).
Local Abbreviation minimize1 := (FunctionVector.minimize1 m_sin Kernel).

(** The step [h] that [goalseek] differentiates with. *)
Local Abbreviation seek_h x0 :=
  (if truthy x0 then x0 * FunctionVector.GS_ETA else FunctionVector.GS_H).

Lemma goalseek_body_true func target h tolerance x x' :
  FunctionVector.goalseek_body func target h tolerance x = Ok (x', true) ->
  exists r, func x' = Ok r /\ (abs (r - target) <? tolerance) = true.
Proof.
  unfold FunctionVector.goalseek_body. intros H.
  apply bind_Ok_inv in H as (y & _ & H).
  apply bind_Ok_inv in H as (u & _ & H).
  apply bind_Ok_inv in H as (l & _ & H).
  apply bind_Ok_inv in H as (m & _ & H).
  apply bind_Ok_inv in H as (q & _ & H).
  apply bind_Ok_inv in H as (r & Hr & H).
  injection H as <- Hflag. eauto.
Qed.

(** X8.  [goalseek] returns the first iterate whose residual is below the
    tolerance: if the loop body breaks for the first time in pass [k], and
    [k] is within [GS_ITERATIONS], the [x] that pass leaves is returned. *)
Theorem goalseek_returns_the_first_hit
  (self : FunctionVector Kernel) (target x0 x : float) (k : nat) :
  hits (FunctionVector.goalseek_body (f self) target (seek_h x0)
          FunctionVector.GS_TOLERANCE) k x0 x ->
  (k <= FunctionVector.GS_ITERATIONS)%nat ->
  goalseek self target x0 = Ok x.
Proof.
  intros Hhits Hk. unfold FunctionVector.goalseek.
  rewrite (for_range_hits _ _ _ _ Hhits _ Hk). simpl.
  apply hits_last in Hhits as (x1 & Hlast).
  apply goalseek_body_true in Hlast as (r & -> & Hbelow). simpl.
  now rewrite (float_ltb_asym _ _ Hbelow).
Qed.

(** X9.  A flat slope is a division by zero, not a convergence failure: when
    the central difference at the start is zero (or the step itself is),
    [goalseek] raises [ZeroDivisionError] in its first pass. *)
Theorem goalseek_flat_slope
  (self : FunctionVector Kernel) (target x0 y u l : float) :
  f self x0 = Ok y ->
  f self (x0 + seek_h x0) = Ok u ->
  f self (x0 - seek_h x0) = Ok l ->
  ((2 * seek_h x0 =? 0) || ((u - l) / (2 * seek_h x0) =? 0)) = true ->
  goalseek self target x0 = Raise ZeroDivisionError.
Proof.
  intros Hy Hu Hl Hflat. unfold FunctionVector.goalseek.
  change FunctionVector.GS_ITERATIONS with (S 999).
  rewrite (for_range_raises _ _ _ ZeroDivisionError); [reflexivity|].
  unfold FunctionVector.goalseek_body. rewrite Hy, Hu, Hl. simpl.
  unfold py_div at 1.
  destruct (2 * seek_h x0 =? 0); [reflexivity|]. simpl in Hflat. simpl.
  unfold py_div. now rewrite Hflat.
Qed.

(** X11.  [minimize1] honours a tolerance of zero, under which it can never
    return, no absolute value being below zero; [minimize] reads a
    tolerance of zero as the default tolerance. *)
Theorem zero_tolerance
  (self : FunctionVector Kernel) (x0 : float) learning_rate iterations :
  (forall x, minimize1 self x0 learning_rate iterations (Some 0) <> Ok x)
  /\ (forall float_pow2 np_dot func start deriv_h return_path,
         FunctionVector.minimize float_pow2 np_dot func start learning_rate
           iterations (Some 0) deriv_h return_path
         = FunctionVector.minimize float_pow2 np_dot func start learning_rate
             iterations None deriv_h return_path).
Proof.
  split; [|reflexivity].
  intros x H. unfold FunctionVector.minimize1 in H.
  apply bind_Ok_inv in H as (x' & _ & H).
  apply bind_Ok_inv in H as (g & _ & H).
  now rewrite float_abs_not_below_0 in H.
Qed.

(** X5.  The hyperbola raises [ZeroDivisionError] at its pole, for every
    finite [x0], and so does a vector in which it is the first key. *)
Theorem hyperbola_pole (k x0 y0 : float) :
  is_nan x0 = false -> is_infinity x0 = false ->
  Function.f m_sin (HyperbolaFunction k x0 y0) x0 = Raise ZeroDivisionError
  /\ forall c rest kernel0,
      f {| vec := (VFunction (HyperbolaFunction k x0 y0), c) :: rest;
           kernel := kernel0 |} x0
      = Raise ZeroDivisionError.
Proof.
  intros Hnan Hinf.
  assert (Function.f m_sin (HyperbolaFunction k x0 y0) x0
          = Raise ZeroDivisionError) as Hpole.
  { simpl. unfold py_div. now rewrite (float_sub_diag x0 Hnan Hinf). }
  split; [exact Hpole|].
  intros c rest kernel0. unfold FunctionVector.f.
  cbn [vec map_r fst FunctionVector.key_call]. unfold Function.call.
  now rewrite Hpole.
Qed.

End SeekFacts.

(** ** FunctionVector: the checks and the two modes of [minimize] *)

(** X12.  [minimize] checks [x0] before it descends.  A non-empty list whose
    length is not the number of parameters of [func] is refused by the
    assertion, [func] not being called at all; a non-empty dict is tried
    on [func] once, and what that call raises is raised. *)
Theorem minimize_checks_the_start
  (float_pow2 : float -> result float)
  (np_dot : list float -> list float -> float) (func : callable)
  (learning_rate : option float) (iterations : option Z)
  (tolerance deriv_h : option float) (return_path : bool) :
  (forall a l,
      List.length (a :: l) <> sig_len func ->
      FunctionVector.minimize float_pow2 np_dot func (XList (a :: l))
        learning_rate iterations tolerance deriv_h return_path
      = Raise (AssertionError "x0 must be of size n"))
  /\ (forall kv d e,
         call_kwargs func (kv :: d) = Raise e ->
         FunctionVector.minimize float_pow2 np_dot func (XDict (kv :: d))
           learning_rate iterations tolerance deriv_h return_path
         = Raise e).
Proof.
  split.
  - intros a l Hlen. unfold FunctionVector.minimize.
    cbn [FunctionVector.start_or_ones].
    apply Nat.eqb_neq in Hlen. now rewrite Hlen.
  - intros kv d e He. unfold FunctionVector.minimize.
    cbn [FunctionVector.start_or_ones]. now rewrite He.
Qed.

(** X13.  A negative [iterations] is kept as it is, the loop does not run,
    and [minimize] fails on the unbound [dfdx], in either mode, for a start
    that is a list (given, or all ones). *)
Theorem minimize_negative_budget
  (float_pow2 : float -> result float)
  (np_dot : list float -> list float -> float) (func : callable)
  (x0 : start) (l : list float) (learning_rate : option float) (n : Z)
  (tolerance deriv_h : option float) (return_path : bool) (t2 : float) :
  FunctionVector.start_or_ones x0 (sig_len func) = XList l ->
  List.length l = sig_len func ->
  (n < 0)%Z ->
  float_pow2 (or_default tolerance FunctionVector.MM_TOLERANCE) = Ok t2 ->
  FunctionVector.minimize float_pow2 np_dot func x0 learning_rate (Some n)
    tolerance deriv_h return_path
  = Raise (UnboundLocalError "dfdx").
Proof.
  intros Hstart Hlen Hn Ht2. unfold FunctionVector.minimize.
  rewrite Hstart, Hlen, Nat.eqb_refl, Ht2. simpl.
  unfold FunctionVector.iterations_or.
  destruct (Z.eqb_spec n 0) as [->|_]; [lia|].
  unfold FunctionVector._minimize_lst, FunctionVector.range_len.
  destruct n; try lia. reflexivity.
Qed.

(** X14.  The two modes of [minimize] run the same descent: a state that
    the default mode returns is the last state of the path that
    [return_path=True] returns for the same arguments. *)
Theorem minimize_returns_the_end_of_the_path
  (float_pow2 : float -> result float)
  (np_dot : list float -> list float -> float)
  (func : callable) (x0 : start) (learning_rate : option float)
  (iterations : option Z) (tolerance deriv_h : option float) (x : point) :
  FunctionVector.minimize float_pow2 np_dot func x0 learning_rate iterations
    tolerance deriv_h false = Ok (Final x) ->
  exists path dfdx,
    FunctionVector.minimize float_pow2 np_dot func x0 learning_rate
      iterations tolerance deriv_h true = Ok (Path path dfdx)
    /\ last path (PList []) = x.
Proof.
  unfold FunctionVector.minimize.
  destruct (FunctionVector.start_or_ones x0 (sig_len func)) as [|l|d].
  - simpl. destruct (float_pow2 _); discriminate.
  - destruct (py_assert _ _) as [[]|e]; [|discriminate]. simpl.
    destruct (float_pow2 _) as [t2|e]; [|discriminate]. simpl.
    destruct (FunctionVector._minimize_lst _ _ _ _ _ _ _)
      as [[[p g] n2]|e]; [|discriminate].
    simpl. destruct (n2 <? t2); [|discriminate].
    intros H. injection H as <-. eauto.
  - destruct (call_kwargs func d) as [y|e]; [|discriminate]. simpl.
    destruct (float_pow2 _) as [t2|e]; [|discriminate]. simpl.
    destruct (FunctionVector._minimize_dct _ _ _ _ _ _ _)
      as [[[p g] n2]|e]; [|discriminate].
    simpl. destruct (n2 <? t2); [|discriminate].
    intros H. injection H as <-. eauto.
Qed.

(** X3.  A keyword argument whose name the class of [self] does not declare
    makes [update] fail with [TypeError], whatever else is passed and
    whatever the class, the wrappers included: the names are bound before
    [__post_init__] runs. *)
Theorem update_undeclared_name
  (F : Function) (kwargs : list (string * pyval)) (k : string) :
  In k (map fst kwargs) ->
  Function.dict_get (Function.declared (Function.class_of F)) k = None ->
  Function.update F kwargs
  = Raise (TypeError "got an unexpected keyword argument").
Proof. apply update_unexpected_keyword. Qed.

(** A wrapper cannot be rebuilt from numbers: whatever numeric keyword
    arguments [update] is given, the copy is refused, by the binding of the
    names or by [__post_init__]. *)
Lemma update_of_a_wrapper_with_numbers
  (F : Function) (kwargs : list (string * pyval)) :
  numeric_class F = false ->
  Forall (fun kv => exists x, snd kv = VFloat x) kwargs ->
  Function.update F kwargs
  = Raise (TypeError "got an unexpected keyword argument")
  \/ Function.update F kwargs = Raise (AssertionError "f must be a Function").
Proof.
  intros Hwrap Hvals.
  set (declared_name := fun kv : string * pyval =>
         Function.dict_get (Function.declared (Function.class_of F)) (fst kv)
         <> None).
  destruct (Forall_Exists_dec declared_name) with (l := kwargs)
    as [Hall | Hex].
  { intros kv. unfold declared_name.
    destruct (Function.dict_get _ (fst kv)); [left; discriminate | right; tauto]. }
  - right.
    assert (forall k, In k (map fst kwargs) ->
                      In k (map fst (Function.params F))) as Hnames.
    { intros k Hk. apply in_map_iff in Hk as (kv & <- & Hkv).
      pose proof (proj1 (Forall_forall _ _) Hall kv Hkv) as Hd.
      apply dict_get_not_In in Hd.
      destruct F; try discriminate; exact Hd. }
    pose proof (dict_merge_keys kwargs (Function.params F) Hnames) as Hkeys.
    assert (Forall (fun kv => isinstance_Function (snd kv) = false)
              (Function.dict_merge (Function.params F) kwargs)) as Hnot.
    { apply (dict_merge_Forall (fun v => isinstance_Function v = false)).
      - destruct F; try discriminate; simpl;
          repeat (apply Forall_cons; [simpl; try reflexivity;
                                      now destruct precision|]);
          apply Forall_nil.
      - apply Forall_forall. intros kv Hkv.
        destruct (proj1 (Forall_forall _ _) Hvals kv Hkv) as [x ->].
        reflexivity. }
    unfold Function.update. cbv zeta.
    destruct (Function.dict_merge (Function.params F) kwargs)
      as [|[k1 v1] [|[k2 v2] [|? ?]]];
      destruct F; try discriminate; try discriminate Hkeys;
      simpl in Hkeys; injection Hkeys as -> ->;
      apply Forall_cons_iff in Hnot as [Hv1 _]; simpl in Hv1;
      destruct v1; try discriminate; reflexivity.
  - left. apply Exists_exists in Hex as (kv & Hkv & Hundeclared).
    apply (update_unexpected_keyword F kwargs (fst kv)).
    + now apply in_map.
    + unfold declared_name in Hundeclared.
      destruct (Function.dict_get _ (fst kv)); [|reflexivity].
      exfalso. apply Hundeclared. discriminate.
Qed.

(** ** FunctionVector: prices, unit vectors and bumps *)

Section PriceFacts.
Variable m_sin : float -> result float.
Variable Kernel : Type.

Lemma terms_of (ev : pyval -> float -> result float) (x : float)
  (entries : list (pyval * float)) :
  forall ys,
    Forall2 (fun kv y => ev (fst kv) x = Ok y) entries ys ->
    map_r (fun kv => y <- ev (fst kv) x ;; Ok (y * snd kv)) entries
    = Ok (map (fun cy => fst cy * snd cy) (combine (map snd entries) ys)).
Proof.
  induction 1 as [|kv y entries ys Hy _ IH]; simpl; [reflexivity|].
  rewrite Hy. simpl. rewrite IH. simpl. now rewrite float_mul_comm.
Qed.

Lemma sum_is_weighted (cs ys : list float) :
  py_sum (map (fun cy => fst cy * snd cy) (combine cs ys)) = weighted_sum cs ys.
Proof.
  unfold py_sum, weighted_sum. generalize 0.
  induction (combine cs ys) as [|cy l IH]; simpl; intros acc; [reflexivity|].
  apply IH.
Qed.

(** X6.  The price of a vector is the sum over its entries of coefficient
    times price, its [df_dx] the negation of that sum, and its [pp] the
    same sum over the second prices; each raises what the first failing
    key raises. *)
Theorem vector_prices_are_weighted_sums (v : FunctionVector Kernel)
  (x : float) :
  (forall ys,
      Forall2 (fun kv y => FunctionVector.key_p m_sin (fst kv) x = Ok y)
              (vec v) ys ->
      FunctionVector.p m_sin Kernel v x
      = Ok (weighted_sum (map snd (vec v)) ys)
      /\ FunctionVector.df_dx m_sin Kernel v x
         = Ok (- weighted_sum (map snd (vec v)) ys))
  /\ (forall ys,
         Forall2 (fun kv y => FunctionVector.key_pp m_sin (fst kv) x = Ok y)
                 (vec v) ys ->
         FunctionVector.pp m_sin Kernel v x
         = Ok (weighted_sum (map snd (vec v)) ys)).
Proof.
  split; intros ys Hys.
  - assert (FunctionVector.p m_sin Kernel v x
            = Ok (weighted_sum (map snd (vec v)) ys)) as Hp.
    { unfold FunctionVector.p.
      rewrite (terms_of (FunctionVector.key_p m_sin) x (vec v) ys Hys).
      simpl. now rewrite sum_is_weighted. }
    split; [exact Hp|]. unfold FunctionVector.df_dx. now rewrite Hp.
  - unfold FunctionVector.pp.
    rewrite (terms_of (FunctionVector.key_pp m_sin) x (vec v) ys Hys).
    simpl. now rewrite sum_is_weighted.
Qed.

End PriceFacts.

(** X15.  [bump] keeps the keys of the dict and their order, adds [h] to the
    value under [k] and leaves every other value as it is; a key the dict
    does not hold changes nothing. *)
Theorem bump_changes_one_value (dct : list (string * float))
  (k : string) (h : float) :
  map fst (FunctionVector.bump dct k h) = map fst dct
  /\ (forall k',
         Function.dict_get (FunctionVector.bump dct k h) k'
         = match Function.dict_get dct k' with
           | Some v => Some (if String.eqb k' k then v + h else v)
           | None => None
           end)
  /\ (~ In k (map fst dct) -> FunctionVector.bump dct k h = dct).
Proof.
  split; [|split].
  - unfold FunctionVector.bump. rewrite map_map. reflexivity.
  - intros k'. induction dct as [|[k0 v0] dct IH]; simpl; [reflexivity|].
    destruct (String.eqb k0 k') eqn:E; [|exact IH].
    apply String.eqb_eq in E. now subst.
  - induction dct as [|[k0 v0] dct IH]; simpl; intros Hk; [reflexivity|].
    destruct (String.eqb k0 k) eqn:E.
    + apply String.eqb_eq in E. tauto.
    + f_equal. apply IH. tauto.
Qed.

(** X16.  For [i < n], [e_i(i, n)] has [n] entries, a one at [i] and zeros
    elsewhere; the point at which [_minimize_lst] takes the forward
    difference along [i] has at [j] the value [x[j] + deriv_h * 1] for
    [j = i] and [x[j] + deriv_h * 0] otherwise. *)
Theorem e_i_is_the_unit_vector (i n : nat) :
  (i < n)%nat ->
  List.length (FunctionVector.e_i i n) = n
  /\ nth i (FunctionVector.e_i i n) 0 = 1
  /\ (forall j, j <> i -> nth j (FunctionVector.e_i i n) 0 = 0)
  /\ (forall x h j,
         List.length x = n -> (j < n)%nat ->
         nth j (FunctionVector.vadd x
                  (FunctionVector.vscale h (FunctionVector.e_i i n))) 0
         = nth j x 0 + h * (if Nat.eqb j i then 1 else 0)).
Proof.
  intros Hi.
  assert (forall j, (j < n)%nat ->
            nth j (FunctionVector.e_i i n) 0 = if Nat.eqb j i then 1 else 0)
    as Hnth.
  { intros j Hj. unfold FunctionVector.e_i.
    rewrite (nth_map_in _ _ _ _ 0%nat) by now rewrite length_seq.
    now rewrite seq_nth by exact Hj. }
  assert (List.length (FunctionVector.e_i i n) = n) as Hlen.
  { unfold FunctionVector.e_i. now rewrite length_map, length_seq. }
  split; [exact Hlen|]. split; [|split].
  - rewrite Hnth by exact Hi. now rewrite Nat.eqb_refl.
  - intros j Hj. destruct (Nat.lt_ge_cases j n) as [Hlt | Hge].
    + rewrite Hnth by exact Hlt.
      now destruct (Nat.eqb_spec j i).
    + apply nth_overflow. now rewrite Hlen.
  - intros x h j Hx Hj.
    unfold FunctionVector.vadd, FunctionVector.vscale.
    rewrite (nth_map_in _ _ _ _ (0, 0))
      by (rewrite length_combine, length_map, Hx, Hlen; lia).
    rewrite combine_nth by now rewrite length_map, Hx, Hlen.
    simpl. rewrite (nth_map_in _ _ _ _ 0) by now rewrite Hlen.
    now rewrite Hnth by exact Hj.
Qed.

(** ** Signs of products *)

Lemma round_false_not_below_0 m e l :
  SFltb (binary_round_aux prec emax false m e l) (S754_zero false) = false.
Proof.
  unfold binary_round_aux.
  destruct (shr_fexp prec emax m e l) as [mrs' e'].
  destruct (shr_fexp prec emax _ e' loc_Exact) as [mrs'' e''].
  destruct (shr_m mrs''); try reflexivity.
  now destruct (Z.leb e'' (emax - prec)).
Qed.

(** A product of two numbers that are not below zero is not below zero. *)
Lemma float_mul_not_below_0 (a b : float) :
  (a <? 0) = false -> (b <? 0) = false -> (a * b <? 0) = false.
Proof.
  rewrite !ltb_spec, mul_spec. change (Prim2SF 0) with (S754_zero false).
  unfold SF64mul, SFmul.
  destruct (Prim2SF a) as [sa|[|]| |[|] ma ea],
           (Prim2SF b) as [sb|[|]| |[|] mb eb];
    try discriminate; try reflexivity; intros _ _;
    try (now destruct sa); try (now destruct sb);
    try (now destruct sa, sb).
  apply round_false_not_below_0.
Qed.

(** A square is not below zero. *)
Lemma float_square_not_below_0 (a : float) : (a * a <? 0) = false.
Proof.
  rewrite ltb_spec, mul_spec. change (Prim2SF 0) with (S754_zero false).
  unfold SF64mul, SFmul.
  destruct (Prim2SF a) as [s|s| |s m e]; try reflexivity;
    rewrite ?xorb_nilpotent; try reflexivity.
  apply round_false_not_below_0.
Qed.

(** ** FunctionVector: distances and curve fitting *)

Section KernelFacts.
Variable float_pow2 : float -> result float.
Variable np_dot : list float -> list float -> float.
Variable m_sin : float -> result float.
Variable Kernel : Type.
Variable Kernel_call : Kernel -> float -> result float.
Variable Kernel_integrate :
  Kernel -> (float -> result float) -> option Z -> option string
  -> result float.

Local Abbreviation kernel_call := (FunctionVector.kernel_call Kernel Kernel_call).
Local Abbreviation integrate_func :=
  (FunctionVector.integrate_func m_sin Kernel Kernel_integrate).
Local Abbreviation distance2 :=
  (FunctionVector.distance2 float_pow2 m_sin Kernel Kernel_call
     Kernel_integrate).
Local Abbreviation distance :=
  (FunctionVector.distance float_pow2 m_sin Kernel Kernel_call
     Kernel_integrate).
Local Abbreviation norm :=
  (FunctionVector.norm float_pow2 m_sin Kernel Kernel_call Kernel_integrate).
Local Abbreviation curve_fit :=
  (FunctionVector.curve_fit float_pow2 np_dot m_sin Kernel Kernel_call
     Kernel_integrate).

Lemma weighted_square_Ok sq F G W x y :
  weighted_square sq F G W x = Ok y ->
  exists d s w, sq d = Ok s /\ W x = Ok w /\ y = s * w.
Proof.
  unfold weighted_square. intros H.
  apply bind_Ok_inv in H as (a & _ & H).
  apply bind_Ok_inv in H as (d & _ & H).
  apply bind_Ok_inv in H as (s & Hs & H).
  apply bind_Ok_inv in H as (w & Hw & H).
  injection H as <-. exists d, s, w. auto.
Qed.

(** X17.  [distance2] integrates, against the kernel, the function that at
    [x] is the square of [self.f(x) - func(x)] (of [self.f(x)] when [func]
    is omitted) times the weight [self.kernel(x)], and raises at [x] what
    the first of these raises.  Given that [** 2] returns nothing below
    zero, that integrand is never below zero where the weight is not.
    [distance] and [norm] take the square root of what the integrator
    returns, and fail with a domain error exactly when that is below
    zero. *)
Theorem distance2_integrand_is_not_negative
  (self : FunctionVector Kernel) (func : option (float -> result float))
  (steps : option Z) (method : option string) :
  (forall y s, float_pow2 y = Ok s -> (s <? 0) = false) ->
  (exists integrand,
      distance2 self func steps method
      = integrate_func self (Some integrand) steps method
      /\ (forall x,
             integrand x
             = weighted_square float_pow2 (FunctionVector.f m_sin Kernel self)
                 func (kernel_call self) x)
      /\ forall x y w,
          integrand x = Ok y ->
          kernel_call self x = Ok w ->
          (w <? 0) = false ->
          (y <? 0) = false)
  /\ (forall d,
         distance2 self func steps method = Ok d ->
         distance self func steps method
         = if d <? 0 then Raise (ValueError "math domain error" None)
           else Ok (sqrt d))
  /\ norm self steps method = distance self None steps method.
Proof.
  intros Hsq. split; [|split].
  - unfold FunctionVector.distance2. cbv zeta.
    eexists. split; [reflexivity|].
    assert (forall x,
               match func with
               | Some g =>
                   fun x =>
                     a <- FunctionVector.f m_sin Kernel self x ;;
                     b <- g x ;;
                     s <- float_pow2 (a - b) ;;
                     w <- kernel_call self x ;; Ok (s * w)
               | None =>
                   fun x =>
                     a <- FunctionVector.f m_sin Kernel self x ;;
                     s <- float_pow2 a ;;
                     w <- kernel_call self x ;; Ok (s * w)
               end x
               = weighted_square float_pow2 (FunctionVector.f m_sin Kernel self)
                   func (kernel_call self) x) as Hpoint.
    { intros x. unfold weighted_square. destruct func as [g|].
      - destruct (FunctionVector.f m_sin Kernel self x) as [a|e];
          [|reflexivity].
        simpl. now destruct (g x).
      - now destruct (FunctionVector.f m_sin Kernel self x). }
    split; [exact Hpoint|].
    intros x y w Hy Hw Hpos. rewrite Hpoint in Hy.
    apply weighted_square_Ok in Hy as (d & s & w' & Hs & Hw' & ->).
    rewrite Hw in Hw'. injection Hw' as <-.
    apply float_mul_not_below_0; [exact (Hsq d s Hs) | exact Hpos].
  - intros d Hd. unfold FunctionVector.distance. now rewrite Hd.
  - reflexivity.
Qed.

(** X18.  [curve_fit] tries [func.update] on [params0] before it descends.
    A name in [params0] that the class of [func] does not declare fails
    with [TypeError]; and a wrapper cannot be fitted at all: with any
    non-empty [params0] the attempt is refused, by the binding of the
    names or by [__post_init__], before anything is integrated. *)
Theorem curve_fit_fails_at_the_probe
  (self : FunctionVector Kernel) (func : Function)
  (kv : string * float) (params0 : list (string * float))
  (learning_rate : option float) (iterations : option Z)
  (tolerance deriv_h : option float) (return_path : bool) :
  (forall k,
      In k (map fst (kv :: params0)) ->
      Function.dict_get (Function.declared (Function.class_of func)) k
      = None ->
      curve_fit self func (kv :: params0) learning_rate iterations tolerance
        deriv_h return_path
      = Raise (TypeError "got an unexpected keyword argument"))
  /\ (numeric_class func = false ->
      curve_fit self func (kv :: params0) learning_rate iterations tolerance
        deriv_h return_path
      = Raise (TypeError "got an unexpected keyword argument")
      \/ curve_fit self func (kv :: params0) learning_rate iterations
           tolerance deriv_h return_path
         = Raise (AssertionError "f must be a Function")).
Proof.
  assert (forall e,
            Function.update func
              (map (fun kv => (fst kv, VFloat (snd kv))) (kv :: params0))
            = Raise e ->
            curve_fit self func (kv :: params0) learning_rate iterations
              tolerance deriv_h return_path = Raise e) as Hprobe.
  { intros e He. unfold FunctionVector.curve_fit, FunctionVector.minimize.
    cbn [FunctionVector.start_or_ones].
    cbn [call_kwargs FunctionVector.optimizer_func]. now rewrite He. }
  split.
  - intros k Hk Hnone. apply Hprobe.
    apply (update_unexpected_keyword func _ k); [|exact Hnone].
    now rewrite map_map.
  - intros Hwrap.
    destruct (update_of_a_wrapper_with_numbers func
                (map (fun kv => (fst kv, VFloat (snd kv))) (kv :: params0))
                Hwrap) as [H | H].
    + apply Forall_forall. intros kv' Hkv'.
      apply in_map_iff in Hkv' as (? & <- & _). simpl. eauto.
    + left. now apply Hprobe.
    + right. now apply Hprobe.
Qed.

(** X19.  [curve_fit] with an empty [params0] does not fit nothing: the
    empty dict is false, the start becomes the list of one [1.0] that the
    one parameter of the signature of [optimizer_func] calls for, and the
    first pass calls [optimizer_func] with a positional argument, which it
    does not take. *)
Theorem curve_fit_without_parameters
  (self : FunctionVector Kernel) (func : Function)
  (learning_rate : option float) (iterations : option Z)
  (tolerance deriv_h : option float) (return_path : bool) (t2 : float) :
  (0 < FunctionVector.iterations_or iterations)%Z ->
  float_pow2 (or_default tolerance FunctionVector.MM_TOLERANCE) = Ok t2 ->
  curve_fit self func [] learning_rate iterations tolerance deriv_h
    return_path
  = Raise (TypeError "takes 0 positional arguments").
Proof.
  intros Hbudget Ht2.
  unfold FunctionVector.curve_fit, FunctionVector.minimize.
  cbn [FunctionVector.start_or_ones sig_len FunctionVector.optimizer_func
       repeat].
  cbn [List.length Nat.eqb py_assert bind]. rewrite Ht2.
  cbn [bind]. unfold FunctionVector._minimize_lst, FunctionVector.range_len.
  destruct (Z.to_nat (FunctionVector.iterations_or iterations)) as [|n] eqn:E;
    [lia|].
  rewrite (for_range_raises _ _ _ (TypeError "takes 0 positional arguments"));
    reflexivity.
Qed.

End KernelFacts.

(** ** ContractsManager *)

Lemma string_length_app (s t : string) :
  String.length (s ++ t)%string = (String.length s + String.length t)%nat.
Proof. induction s as [|c s IH]; simpl; [reflexivity | now rewrite IH]. Qed.

Lemma substring_whole (s : string) (n : nat) :
  (String.length s <= n)%nat -> substring 0 n s = s.
Proof.
  revert n. induction s as [|c s IH]; intros [|n] Hn; simpl in *;
    try reflexivity; try lia.
  f_equal. apply IH. lia.
Qed.

Lemma last4_of_suffix (prefix tail : string) :
  String.length tail = 4%nat ->
  ContractsManager.last4 (prefix ++ tail) = tail.
Proof.
  intros Htail. unfold ContractsManager.last4.
  rewrite string_length_app, Htail, Nat.add_sub.
  induction prefix as [|c prefix IH]; simpl.
  - apply substring_whole. lia.
  - exact IH.
Qed.

(** X20.  The token key keeps the symbol and the last four characters of the
    address only.  Two addresses that end alike get the same key under one
    symbol; a short address is kept whole; a missing symbol gives the same
    key as the symbol spelt "None", both being printed about; and a
    missing address is printed and then fails with [TypeError]. *)
Theorem token_key_is_symbol_and_suffix (symbol : option string) :
  (forall prefix prefix' tail,
      String.length tail = 4%nat ->
      snd (ContractsManager.get_tkn_key symbol (Some (prefix ++ tail)%string))
      = Ok (ContractsManager.py_str symbol ++ "-" ++ tail)%string
      /\ snd (ContractsManager.get_tkn_key symbol
                (Some (prefix ++ tail)%string))
         = snd (ContractsManager.get_tkn_key symbol
                  (Some (prefix' ++ tail)%string)))
  /\ (forall addr,
         (String.length addr <= 4)%nat ->
         snd (ContractsManager.get_tkn_key symbol (Some addr))
         = Ok (ContractsManager.py_str symbol ++ "-" ++ addr)%string)
  /\ (forall addr,
         ContractsManager.get_tkn_key None (Some addr)
         = ContractsManager.get_tkn_key (Some "None") (Some addr)
         /\ fst (ContractsManager.get_tkn_key None (Some addr)) = [addr])
  /\ ContractsManager.get_tkn_key symbol None
     = (["None"],
        Raise (TypeError "'NoneType' object is not subscriptable")).
Proof.
  split; [|split; [|split]].
  - intros prefix prefix' tail Htail. simpl.
    now rewrite !(last4_of_suffix _ tail Htail).
  - intros addr Hlen. simpl. unfold ContractsManager.last4.
    replace (String.length addr - 4)%nat with 0%nat by lia.
    now rewrite substring_whole by lia.
  - intros addr. split; reflexivity.
  - unfold ContractsManager.get_tkn_key.
    destruct symbol as [s|]; [|reflexivity].
    now rewrite orb_true_r.
Qed.

Lemma dict_get_set_same {V} (d : list (string * V)) (k : string) (v : V) :
  Function.dict_get (Function.dict_set d k v) k = Some v.
Proof.
  induction d as [|[k' v'] d IH]; simpl.
  - now rewrite String.eqb_refl.
  - destruct (String.eqb k' k) eqn:E; simpl; now rewrite E.
Qed.

Lemma dict_get_set_other {V} (d : list (string * V)) (k k' : string) (v : V) :
  k' <> k ->
  Function.dict_get (Function.dict_set d k v) k' = Function.dict_get d k'.
Proof.
  intros Hk. induction d as [|[k0 v0] d IH]; simpl.
  - destruct (String.eqb_spec k k'); [congruence | reflexivity].
  - destruct (String.eqb k0 k) eqn:E; simpl.
    + apply String.eqb_eq in E. subst.
      destruct (String.eqb_spec k k'); [congruence | reflexivity].
    + destruct (String.eqb k0 k'); [reflexivity | exact IH].
Qed.

Section ContractFacts.
Variable Contract : Type.
Variable erc20_contract : ContractsManager.provider -> string -> result Contract.

Local Abbreviation get_or_create :=
  (ContractsManager.get_or_create_token_contracts Contract erc20_contract).

(** X21.  The dict of token contracts is a cache.  Off the Tenderly branch,
    a call that returns leaves the contract it returns under the address,
    leaves every other address as it was, and a second call returns the
    same contract and the same dict; an address already in the dict is
    returned without a contract being built.  On the Tenderly branch the
    dict is neither read nor written. *)
Theorem token_contracts_are_cached
  (erc20_contracts : list (string * Contract)) (address : string)
  (exchange_name tenderly_fork_id : option string) :
  (ContractsManager.is_name exchange_name "bancor_pol"
   && ContractsManager.str_truthy tenderly_fork_id = false ->
   (forall cached,
       Function.dict_get erc20_contracts address = Some cached ->
       get_or_create erc20_contracts address exchange_name tenderly_fork_id
       = Ok (cached, erc20_contracts))
   /\ forall contract after,
       get_or_create erc20_contracts address exchange_name tenderly_fork_id
       = Ok (contract, after) ->
       Function.dict_get after address = Some contract
       /\ (forall other, other <> address ->
                         Function.dict_get after other
                         = Function.dict_get erc20_contracts other)
       /\ get_or_create after address exchange_name tenderly_fork_id
          = Ok (contract, after))
  /\ (ContractsManager.is_name exchange_name "bancor_pol"
      && ContractsManager.str_truthy tenderly_fork_id = true ->
      forall contract after,
        get_or_create erc20_contracts address exchange_name tenderly_fork_id
        = Ok (contract, after) ->
        after = erc20_contracts).
Proof.
  unfold ContractsManager.get_or_create_token_contracts.
  split; intros Hbranch; rewrite Hbranch.
  - split.
    + intros cached Hcached. now rewrite Hcached.
    + intros contract after H.
      destruct (Function.dict_get erc20_contracts address) as [cached|] eqn:E.
      * injection H as <- <-. rewrite E. repeat split; auto.
      * apply bind_Ok_inv in H as (c & _ & H). injection H as <- <-.
        rewrite dict_get_set_same. repeat split.
        intros other Hother. now apply dict_get_set_other.
  - intros contract after H.
    apply bind_Ok_inv in H as (c & _ & H). now injection H as _ <-.
Qed.

Variable Exchange : Type.
Variable ABI : Type.
Variable get_abi : Exchange -> result ABI.
Variable pool_contract : string -> ABI -> result Contract.

Local Abbreviation manager := (ContractsManager.manager Contract Exchange).
Local Abbreviation get_pool_contract :=
  (ContractsManager.get_pool_contract Contract Exchange ABI get_abi
     pool_contract).

(** X22.  [get_pool_contract] returns [None] for an exchange the manager
    does not know; for "bancor_v3" and "bancor_pol" it ignores the address
    it is given; it builds a contract before it looks the key up, so a
    failure to build is raised even when the contract is cached; and when
    both succeed the cached contract wins. *)
Theorem pool_contract_lookup (self : manager) (exchange_name : string) :
  (Function.dict_get (ContractsManager.exchanges _ _ self) exchange_name
   = None ->
   forall address, get_pool_contract self exchange_name address = Ok None)
  /\ (forall address address',
         get_pool_contract self "bancor_v3" address
         = get_pool_contract self "bancor_v3" address'
         /\ get_pool_contract self "bancor_pol" address
            = get_pool_contract self "bancor_pol" address')
  /\ (forall exchange pools abi address,
         Function.dict_get (ContractsManager.exchanges _ _ self)
           exchange_name = Some exchange ->
         Function.dict_get (ContractsManager.pool_contracts _ _ self)
           exchange_name = Some pools ->
         get_abi exchange = Ok abi ->
         (forall e,
             pool_contract
               (ContractsManager.contract_key _ _ self exchange_name address)
               abi = Raise e ->
             get_pool_contract self exchange_name address = Raise e)
         /\ (forall fresh cached,
                pool_contract
                  (ContractsManager.contract_key _ _ self exchange_name
                     address) abi = Ok fresh ->
                Function.dict_get pools
                  (ContractsManager.contract_key _ _ self exchange_name
                     address) = Some cached ->
                get_pool_contract self exchange_name address
                = Ok (Some cached))).
Proof.
  split; [|split].
  - intros Hnone address. unfold ContractsManager.get_pool_contract.
    now rewrite Hnone.
  - intros address address'. split; reflexivity.
  - intros exchange pools abi address Hex Hpools Habi.
    unfold ContractsManager.get_pool_contract. rewrite Hex, Hpools, Habi.
    simpl. split.
    + intros e He. now rewrite He.
    + intros fresh cached Hfresh Hcached. rewrite Hfresh. simpl.
      now rewrite Hcached.
Qed.

End ContractFacts.

(** ** More statements at the sample inputs *)

(** [update] on an instance of a user class: the one field is replaced. *)
Lemma update_overrides_witness :
  Function.update user_hyperbola [("k", VFloat 2)]
  = Ok (UserFunction HyperbolaClass [("k", 2)]).
Proof.
  assert (has_declared_fields user_hyperbola) as Hdecl.
  { split; [reflexivity|]. repeat constructor. simpl. tauto. }
  destruct (update_overrides_the_named_fields user_hyperbola
              [("k", VFloat 2)] eq_refl Hdecl)
    as (F' & HF' & _ & _).
  - intros k [<- | []]. simpl. auto.
  - repeat constructor. simpl. eauto.
  - rewrite HF'. vm_compute in HF'. now injection HF' as <-.
Defined.

Lemma update_identity_witness :
  has_declared_fields user_hyperbola
  /\ Function.update user_hyperbola [] = Ok user_hyperbola.
Proof.
  assert (has_declared_fields user_hyperbola) as Hdecl.
  { split; [reflexivity|]. repeat constructor. simpl. tauto. }
  split; [exact Hdecl|].
  exact (update_without_arguments_is_identity user_hyperbola eq_refl Hdecl).
Defined.

(** A wrapper given a name of the wrapped class: the name is refused
    before the wrapped function is looked at. *)
Lemma update_undeclared_witness :
  Function.update (PriceFunction square None) [("a", VFloat 1)]
  = Raise (TypeError "got an unexpected keyword argument").
Proof.
  apply (update_undeclared_name (PriceFunction square None)
           [("a", VFloat 1)] "a").
  - simpl. auto.
  - reflexivity.
Defined.

(** The line [x - 5] from [1]: the first Newton step lands within the
    tolerance and is returned. *)
Lemma goalseek_first_hit_witness :
  FunctionVector.goalseek sample_sin nat line_vector 0 1 = Ok line_root.
Proof.
  apply (goalseek_returns_the_first_hit sample_sin nat line_vector 0 1
           line_root 1).
  - apply hits_now. vm_compute. reflexivity.
  - vm_compute. lia.
Defined.

Lemma goalseek_returned_witness :
  exists r,
    FunctionVector.f sample_sin nat line_vector line_root = Ok r
    /\ (FunctionVector.GS_TOLERANCE <? abs (r - 0)) = false.
Proof.
  apply (goalseek_returned sample_sin nat line_vector 0 1 line_root).
  vm_compute. reflexivity.
Defined.

(** A constant has no slope to follow. *)
Lemma goalseek_flat_witness :
  FunctionVector.goalseek sample_sin nat flat_vector 0 1
  = Raise ZeroDivisionError.
Proof.
  apply (goalseek_flat_slope sample_sin nat flat_vector 0 1 3 3 3);
    vm_compute; reflexivity.
Defined.

Lemma minimize1_returned_witness :
  exists g,
    FunctionVector.p sample_sin nat square_vector square_minimum = Ok g
    /\ (abs g <? FunctionVector.MM_TOLERANCE) = true.
Proof.
  apply (minimize1_returned sample_sin nat square_vector 1 None None None
           square_minimum).
  vm_compute. reflexivity.
Defined.

Lemma hyperbola_pole_witness :
  Function.f sample_sin (HyperbolaFunction 1 2 0) 2 = Raise ZeroDivisionError
  /\ FunctionVector.f sample_sin nat pole_vector 2 = Raise ZeroDivisionError.
Proof.
  destruct (hyperbola_pole sample_sin nat 1 2 0 eq_refl eq_refl)
    as [Hf Hvec].
  split; [exact Hf | exact (Hvec 1 [] (Some 0%nat))].
Defined.

Lemma df_dx_generic_witness :
  Function.df_dx sample_sin square 1 None
  = Function.df_dx_rel sample_sin square 1 None None.
Proof.
  apply (df_dx_generic sample_sin square 1 None).
  intros cls fields H. discriminate H.
Defined.

(** Three numbers for a function of two; a dict that the function does
    not take. *)
Lemma minimize_checks_witness :
  FunctionVector.minimize sample_pow2 sample_dot bowl (XList [0; 0; 0])
    None None None None false
  = Raise (AssertionError "x0 must be of size n")
  /\ FunctionVector.minimize sample_pow2 sample_dot bowl (XDict [("z", 0)])
       None None None None false
     = Raise (TypeError "got an unexpected keyword argument").
Proof.
  destruct (minimize_checks_the_start sample_pow2 sample_dot bowl
              None None None None false)
    as [Hlist Hdict].
  split.
  - apply (Hlist 0 [0; 0]). simpl. lia.
  - apply (Hdict ("z", 0) []). reflexivity.
Defined.

Lemma minimize_negative_budget_witness :
  FunctionVector.minimize sample_pow2 sample_dot bowl XNone None
    (Some (-1)%Z) None None true
  = Raise (UnboundLocalError "dfdx").
Proof.
  apply (minimize_negative_budget sample_pow2 sample_dot bowl XNone [1; 1]
           None (-1) None None true
           (FunctionVector.MM_TOLERANCE * FunctionVector.MM_TOLERANCE));
    try reflexivity.
Defined.

Lemma minimize_end_of_path_witness :
  exists path dfdx,
    FunctionVector.minimize sample_pow2 sample_dot bowl (XList [0; 0])
      None None None None true
    = Ok (Path path dfdx)
    /\ last path (PList []) = bowl_end.
Proof.
  apply (minimize_returns_the_end_of_the_path sample_pow2 sample_dot bowl
           (XList [0; 0]) None None None None bowl_end).
  vm_compute. reflexivity.
Defined.

Lemma vector_prices_witness :
  FunctionVector.p sample_sin nat two_vector 2
  = Ok (weighted_sum [3; 0.5] two_prices)
  /\ FunctionVector.df_dx sample_sin nat two_vector 2
     = Ok (- weighted_sum [3; 0.5] two_prices)
  /\ FunctionVector.pp sample_sin nat two_vector 2
     = Ok (weighted_sum [3; 0.5] two_second_prices).
Proof.
  destruct (vector_prices_are_weighted_sums sample_sin nat two_vector 2)
    as [Hp Hpp].
  destruct (Hp two_prices) as [H1 H2]; [repeat constructor|].
  split; [exact H1|]. split; [exact H2|].
  apply (Hpp two_second_prices). repeat constructor.
Defined.

Lemma bump_witness :
  FunctionVector.bump [("a", 1); ("b", 2)] "b" 0.5 = [("a", 1); ("b", 2.5)]
  /\ FunctionVector.bump [("a", 1); ("b", 2)] "c" 0.5 = [("a", 1); ("b", 2)].
Proof.
  split; [reflexivity|].
  destruct (bump_changes_one_value [("a", 1); ("b", 2)] "c" 0.5)
    as (_ & _ & Habsent).
  apply Habsent. simpl. intros [H | [H | []]]; discriminate H.
Defined.

Lemma e_i_witness :
  FunctionVector.e_i 1 3 = [0; 1; 0]
  /\ List.length (FunctionVector.e_i 1 3) = 3%nat
  /\ nth 1 (FunctionVector.e_i 1 3) 0 = 1.
Proof.
  split; [reflexivity|].
  destruct (e_i_is_the_unit_vector 1 3 ltac:(lia)) as (Hlen & Hone & _).
  split; [exact Hlen | exact Hone].
Defined.

(** The rounded square is not below zero. *)
Lemma sample_pow2_not_below_0 (y s : float) :
  sample_pow2 y = Ok s -> (s <? 0) = false.
Proof.
  intros H. apply py_pow2_Ok in H as ->. apply float_square_not_below_0.
Qed.

(** The square against the constant [1], under the sample kernel, whose
    integral is the integrand at [2]: the squared distance is
    [(4 - 1) ** 2 * 1 = 9] and the distance [3]. *)
Lemma distance2_witness :
  FunctionVector.distance2 sample_pow2 sample_sin nat sample_weight
    sample_rule square_vector (Some (fun _ => Ok 1)) None None = Ok 9
  /\ FunctionVector.distance sample_pow2 sample_sin nat sample_weight
       sample_rule square_vector (Some (fun _ => Ok 1)) None None = Ok 3
  /\ (9 <? 0) = false.
Proof.
  destruct (distance2_integrand_is_not_negative sample_pow2 sample_sin nat
              sample_weight sample_rule square_vector (Some (fun _ => Ok 1))
              None None sample_pow2_not_below_0)
    as ((integrand & Heq & Hpoint & Hpos) & Hroot & _).
  assert (FunctionVector.distance2 sample_pow2 sample_sin nat sample_weight
            sample_rule square_vector (Some (fun _ => Ok 1)) None None = Ok 9)
    as Hnine.
  { rewrite Heq. cbn [FunctionVector.integrate_func kernel square_vector
                      sample_rule].
    rewrite Hpoint. vm_compute. reflexivity. }
  split; [exact Hnine|]. split.
  - rewrite (Hroot 9 Hnine). vm_compute. reflexivity.
  - apply (Hpos 2 9 1); [|reflexivity|reflexivity].
    rewrite Hpoint. vm_compute. reflexivity.
Defined.

(** Fitting the square with a name it does not declare, and fitting its
    price function. *)
Lemma curve_fit_probe_witness :
  FunctionVector.curve_fit sample_pow2 sample_dot sample_sin nat
    sample_weight sample_rule two_vector square [("k", 1)]
    None None None None false
  = Raise (TypeError "got an unexpected keyword argument")
  /\ (FunctionVector.curve_fit sample_pow2 sample_dot sample_sin nat
        sample_weight sample_rule two_vector (PriceFunction square None)
        [("precision", 1)] None None None None false
      = Raise (TypeError "got an unexpected keyword argument")
      \/ FunctionVector.curve_fit sample_pow2 sample_dot sample_sin nat
           sample_weight sample_rule two_vector (PriceFunction square None)
           [("precision", 1)] None None None None false
         = Raise (AssertionError "f must be a Function")).
Proof.
  split.
  - destruct (curve_fit_fails_at_the_probe sample_pow2 sample_dot sample_sin
                nat sample_weight sample_rule two_vector square ("k", 1) []
                None None None None false) as [Hname _].
    apply (Hname "k"); [simpl; auto | reflexivity].
  - destruct (curve_fit_fails_at_the_probe sample_pow2 sample_dot sample_sin
                nat sample_weight sample_rule two_vector
                (PriceFunction square None) ("precision", 1) []
                None None None None false)
      as [_ Hwrap].
    exact (Hwrap eq_refl).
Defined.

Lemma curve_fit_without_parameters_witness :
  FunctionVector.curve_fit sample_pow2 sample_dot sample_sin nat
    sample_weight sample_rule two_vector square [] None None None None false
  = Raise (TypeError "takes 0 positional arguments").
Proof.
  apply (curve_fit_without_parameters sample_pow2 sample_dot sample_sin nat
           sample_weight sample_rule two_vector square None None None None
           false (FunctionVector.MM_TOLERANCE * FunctionVector.MM_TOLERANCE));
    reflexivity.
Defined.

Lemma token_key_witness :
  snd (ContractsManager.get_tkn_key (Some "WETH")
         (Some "0xC02aaA39b223FE8D0A0e5C4F27eAD9083C756Cc2"))
  = Ok "WETH-6Cc2"
  /\ snd (ContractsManager.get_tkn_key (Some "WETH") (Some "0x6Cc2"))
     = Ok "WETH-6Cc2".
Proof.
  destruct (token_key_is_symbol_and_suffix (Some "WETH")) as (Hsuffix & _).
  split.
  - exact (proj1 (Hsuffix "0xC02aaA39b223FE8D0A0e5C4F27eAD9083C75" ""
                    "6Cc2" eq_refl)).
  - exact (proj1 (Hsuffix "0x" "" "6Cc2" eq_refl)).
Defined.

Lemma token_contracts_witness :
  ContractsManager.get_or_create_token_contracts nat sample_erc20
    [("0xabc", 5%nat)] "0xdef12" None None
  = Ok (7%nat, [("0xabc", 5%nat); ("0xdef12", 7%nat)])
  /\ ContractsManager.get_or_create_token_contracts nat sample_erc20
       [("0xabc", 5%nat); ("0xdef12", 7%nat)] "0xdef12" None None
     = Ok (7%nat, [("0xabc", 5%nat); ("0xdef12", 7%nat)]).
Proof.
  split; [reflexivity|].
  destruct (token_contracts_are_cached nat sample_erc20 [("0xabc", 5%nat)]
              "0xdef12" None None) as [Hcache _].
  destruct (Hcache eq_refl) as [_ Hafter].
  exact (proj2 (proj2 (Hafter 7%nat _ eq_refl))).
Defined.

Lemma pool_contract_witness :
  ContractsManager.get_pool_contract nat nat nat sample_get_abi
    failing_pool_contract sample_manager "uniswap_v2" "0xC537" = Ok None
  /\ ContractsManager.get_pool_contract nat nat nat sample_get_abi
       failing_pool_contract sample_manager "carbon_v1" "0xC537"
     = Raise (ValueError "invalid address" None).
Proof.
  split.
  - destruct (pool_contract_lookup nat nat nat sample_get_abi
                failing_pool_contract sample_manager "uniswap_v2")
      as (Hnone & _).
    exact (Hnone eq_refl "0xC537").
  - destruct (pool_contract_lookup nat nat nat sample_get_abi
                failing_pool_contract sample_manager "carbon_v1")
      as (_ & _ & Hknown).
    destruct (Hknown 1%nat [("0xC537", 42%nat)] 1%nat "0xC537"
                eq_refl eq_refl eq_refl) as [Hraise _].
    exact (Hraise _ eq_refl).
Defined.
